(** * websocket_sniper.py: the snipe dispatcher, the order gateway and the
      feed session, embedded and verified.

    The program keeps three module-level globals ([SNIPE_LIST],
    [active_orders], [ws_connected]), one file ([snipe_config.json]) and
    talks to the outside through [log], [requests.post], [ws.send],
    [time.sleep] and [ws.run_forever].  The embedding threads a [world]
    (globals, file, chronological list of effects) through a small
    state-and-exception monad; Python exceptions are values of [pyexn].

    What the outside answers (the clock, the exchange, the file system,
    the socket, the way a session ends) is an argument of each handler.
    Library functions the program calls ([json.loads], [float] on a
    [str], [urlencode], HMAC, [str.lower], [json.dumps],
    [os.environ.get]) are the fields of the class [PyLib]; every theorem
    holds for all of them.

    Standing assumptions: [log] (a [print] followed by a flush) returns
    normally; the callbacks of one [WebSocketApp] run one after the
    other on the single feed thread, which is the only thread that
    writes the globals. *)

From Stdlib Require Import ZArith String Ascii List Bool Lia.
From Stdlib Require Import Floats.SpecFloat.
From stdpp Require Import base option list gmap strings pretty fin_maps.

Set Warnings "-register-all".
Local Open Scope Z_scope.
Local Open Scope string_scope.

(* ------------------------------------------------------------------ *)
(** ** Python values that reach the handlers *)

(** Exceptions (all of them subclasses of [Exception]). *)
Inductive pyexn :=
  | JSONDecodeError | KeyError | TypeError | ValueError | OverflowError
  | AttributeError | OSError | RequestException | UnicodeEncodeError.

Inductive result (A : Type) :=
  | Ok (a : A)
  | Raise (e : pyexn).
Arguments Ok {A} a.
Arguments Raise {A} e.

(** What [json.loads] / [json.load] / [response.json()] build: [None],
    [bool], [int] (unbounded), [float] (binary64), [str], [list], [dict]
    with [str] keys.  Feed objects are only ever looked up by key, so a
    [gmap] holds them. *)
Inductive json :=
  | JNull
  | JBool (b : bool)
  | JInt (z : Z)
  | JFloat (f : spec_float)
  | JStr (s : string)
  | JArr (l : list json)
  | JObj (m : gmap string json).

(** binary64 *)
Definition prec64 : Z := 53.
Definition emax64 : Z := 1024.
Definition float_zero : spec_float := S754_zero false.
Definition float_one : spec_float := S754_finite false 4503599627370496 (-52).

(** [x > 0] on a float [x] (the int [0] compares as [0.0]). *)
Definition float_gt0 (x : spec_float) : bool := SFltb float_zero x.

(** [float(n)] for an int: round to nearest even, [OverflowError] when
    the rounded value does not fit binary64. *)
Definition float_of_int (z : Z) : result spec_float :=
  match binary_normalize prec64 emax64 z 0 false with
  | S754_infinity _ => Raise OverflowError
  | f => Ok f
  end.

(** [needle in hay] for two [str]: substring test. *)
Fixpoint is_substring (needle hay : string) : bool :=
  String.prefix needle hay ||
  match hay with
  | EmptyString => false
  | String _ rest => is_substring needle rest
  end.

(** [e == k] for a [str] [k]: only an equal [str] compares equal. *)
Definition eq_str (k : string) (e : json) : bool :=
  match e with
  | JStr s => bool_decide (s = k)
  | _ => false
  end.

(** [k in c] for a [str] [k]. *)
Definition py_in (k : string) (c : json) : result bool :=
  match c with
  | JObj m => Ok (bool_decide (is_Some (m !! k)))
  | JArr l => Ok (existsb (eq_str k) l)
  | JStr s => Ok (is_substring k s)
  | JNull | JBool _ | JInt _ | JFloat _ => Raise TypeError
  end.

(** [c[k]] for a [str] [k]. *)
Definition py_getitem (c : json) (k : string) : result json :=
  match c with
  | JObj m => match m !! k with Some v => Ok v | None => Raise KeyError end
  | _ => Raise TypeError
  end.

(** [c.get(k, d)]. *)
Definition py_get (c : json) (k : string) (d : json) : result json :=
  match c with
  | JObj m => Ok (default d (m !! k))
  | _ => Raise AttributeError
  end.

(** A value used as a dictionary key: lists and dicts are unhashable;
    among the hashable ones only a [str] can equal a [str] key. *)
Definition py_hash_key (k : json) : result (option string) :=
  match k with
  | JStr s => Ok (Some s)
  | JArr _ | JObj _ => Raise TypeError
  | JNull | JBool _ | JInt _ | JFloat _ => Ok None
  end.

(* ------------------------------------------------------------------ *)
(** ** [SNIPE_LIST]: an insertion-ordered [dict] with [str] keys

    [on_open] and [json.dump] iterate it, so the order is kept: an
    association list.  [json.load] never yields a repeated key;
    the operations below keep that ([dict_del] removes every entry of the
    key, which is the one entry a real dict has). *)

Definition pydict := list (string * json).

Definition dict_keys (d : pydict) : list string := d.*1.

Fixpoint dict_get (k : string) (d : pydict) : option json :=
  match d with
  | [] => None
  | (k', v) :: rest => if decide (k' = k) then Some v else dict_get k rest
  end.

Definition dict_mem (k : string) (d : pydict) : bool :=
  bool_decide (is_Some (dict_get k d)).

Fixpoint dict_del (k : string) (d : pydict) : pydict :=
  match d with
  | [] => []
  | (k', v) :: rest =>
      if decide (k' = k) then dict_del k rest else (k', v) :: dict_del k rest
  end.

(* ------------------------------------------------------------------ *)
(** ** The world the handlers run in *)

(** [active_orders] values: the strings ['executing'], ['completed'],
    ['failed']. *)
Inductive order_status := executing | completed | failed.

(** The request handed to [requests.post]. *)
Record request := {
  url : string;
  params : list (string * json);
  headers : list (string * option string);
  timeout : Z
}.

(** Lines passed to [log], one constructor per call site. *)
Inductive log_entry :=
  | LogSaveError (e : pyexn)
  | LogExecuting (symbol : string) (quantity : json)
  | LogSnipeSuccess (symbol : string) (order_id : json)
  | LogSnipeFailed (symbol : string) (msg : json)
  | LogOrderError (symbol : string) (e : pyexn)
  | LogDetected (symbol : string)
  | LogPrice (c : json)
  | LogVolume (v : json)
  | LogRemoved (symbol : string)
  | LogWillNotRetry (symbol : string)
  | LogMessageError (e : pyexn)
  | LogWsError
  | LogClosed
  | LogCloseCode
  | LogConnected
  | LogSubscribed (n : nat)
  | LogNoTokens
  | LogTargets
  | LogTarget (symbol : string) (amount : json)
  | LogWaiting
  | LogStarting
  | LogCrashed (e : pyexn).

(** What the process does to the outside, in the order it does it.
    [CallGateway] marks an entry into [place_market_order]. *)
Inductive effect :=
  | Log (l : log_entry)
  | CallGateway (symbol : string) (quantity : json)
  | HttpPost (r : request)
  | WsSend (frame : string)
  | Sleep (seconds : Z)
  | WsRunForever.

(** [snipe_config.json]: absent, holding a dumped mapping, or cut short
    by a write that failed after [open(..., 'w')] truncated it. *)
Inductive file_state :=
  | FileMissing
  | FileHolds (d : pydict)
  | FilePartial.

Record world := {
  SNIPE_LIST : pydict;
  active_orders : gmap string order_status;
  ws_connected : bool;
  config_file : file_state;
  effects : list effect
}.

Definition set_SNIPE_LIST (d : pydict) (w : world) : world :=
  {| SNIPE_LIST := d; active_orders := active_orders w;
     ws_connected := ws_connected w; config_file := config_file w;
     effects := effects w |}.
Definition set_active_orders (a : gmap string order_status) (w : world) : world :=
  {| SNIPE_LIST := SNIPE_LIST w; active_orders := a;
     ws_connected := ws_connected w; config_file := config_file w;
     effects := effects w |}.
Definition set_ws_connected (b : bool) (w : world) : world :=
  {| SNIPE_LIST := SNIPE_LIST w; active_orders := active_orders w;
     ws_connected := b; config_file := config_file w;
     effects := effects w |}.
Definition set_config_file (f : file_state) (w : world) : world :=
  {| SNIPE_LIST := SNIPE_LIST w; active_orders := active_orders w;
     ws_connected := ws_connected w; config_file := f;
     effects := effects w |}.
Definition add_effects (l : list effect) (w : world) : world :=
  {| SNIPE_LIST := SNIPE_LIST w; active_orders := active_orders w;
     ws_connected := ws_connected w; config_file := config_file w;
     effects := (effects w ++ l)%list |}.
Definition add_effect (e : effect) (w : world) : world := add_effects [e] w.

(** What the outside answers during one callback: the clock, the
    exchange, the file system. *)
Inductive http_outcome :=
  | HttpRaises (e : pyexn)             (* network failure, timeout *)
  | HttpResponse (body : result json). (* [response.json()] *)

Inductive write_outcome :=
  | WriteOk
  | OpenFails      (* [open] raises, file untouched *)
  | DumpFails.     (* [json.dump] raises after the truncation *)

Record env := {
  time_ms : Z;                           (* int(time.time() * 1000) *)
  http_post : request → http_outcome;
  file_write : write_outcome
}.

(** Library functions the program calls and does not define. *)
Class PyLib := {
  json_loads : string → result json;            (* json.loads *)
  float_of_str : string → result spec_float;    (* float(s), s a str *)
  urlencode : list (string * json) → result string; (* urllib.parse.urlencode *)
  hmac_sha256_hex : string → string → string;   (* hmac.new(k, m, sha256).hexdigest() *)
  str_lower : string → string;                  (* str.lower *)
  json_dumps : json → string;                   (* json.dumps *)
  environ_get : string → option string          (* os.environ.get *)
}.

(* ------------------------------------------------------------------ *)
(** ** State and exceptions *)

Definition M (A : Type) : Type := world → result A * world.

Global Instance M_ret : MRet M := λ A a w, (Ok a, w).
Global Instance M_bind : MBind M := λ A B f m w,
  match m w with
  | (Ok a, w') => f a w'
  | (Raise e, w') => (Raise e, w')
  end.

Definition lift {A} (r : result A) : M A := λ w, (r, w).
Definition gets {A} (f : world → A) : M A := λ w, (Ok (f w), w).
Definition modify (f : world → world) : M unit := λ w, (Ok tt, f w).
Definition emit (e : effect) : M unit := modify (add_effect e).
Definition log (l : log_entry) : M unit := emit (Log l).

(** [try: body  except Exception as e: handler e] *)
Definition try_except {A} (body : M A) (handler : pyexn → M A) : M A := λ w,
  match body w with
  | (Ok a, w') => (Ok a, w')
  | (Raise e, w') => handler e w'
  end.

(* ------------------------------------------------------------------ *)
(** ** The program *)

Definition BASE_URL : string := "https://api.mexc.com".

Section Program.
Context {lib : PyLib}.

Definition API_KEY : option string := environ_get "MEXC_API_KEY".
Definition SECRET_KEY : option string := environ_get "MEXC_SECRET_KEY".

(** [float(v)] *)
Definition py_float (v : json) : result spec_float :=
  match v with
  | JFloat f => Ok f
  | JInt z => float_of_int z
  | JBool b => Ok (if b then float_one else float_zero)
  | JStr s => float_of_str s
  | JNull | JArr _ | JObj _ => Raise TypeError
  end.

(** [with open('snipe_config.json', 'w') as f: json.dump(SNIPE_LIST, f, indent=2)] *)
Definition write_config (e : env) : M unit := λ w,
  match file_write e with
  | WriteOk => (Ok tt, set_config_file (FileHolds (SNIPE_LIST w)) w)
  | OpenFails => (Raise OSError, w)
  | DumpFails => (Raise OSError, set_config_file FilePartial w)
  end.

Definition save_snipe_list (e : env) : M unit :=
  try_except (write_config e) (λ ex, log (LogSaveError ex)).

(** [requests.post(url, params=params, headers=headers, timeout=10)] *)
Definition requests_post (e : env) (r : request) : M (result json) :=
  emit (HttpPost r);;
  match http_post e r with
  | HttpRaises ex => lift (Raise ex)
  | HttpResponse body => mret body
  end.

(** [SECRET_KEY.encode('utf-8')]: [None] has no [encode]. *)
Definition secret_bytes : result string :=
  match SECRET_KEY with
  | Some k => Ok k
  | None => Raise AttributeError
  end.

Definition order_params (symbol : string) (quantity : json) (timestamp : Z)
  : list (string * json) :=
  [("symbol", JStr symbol); ("side", JStr "BUY"); ("type", JStr "MARKET");
   ("quoteOrderQty", quantity); ("timestamp", JInt timestamp)].

Definition place_market_order_try (e : env) (symbol : string) (quantity : json)
  : M bool :=
  log (LogExecuting symbol quantity);;
  let endpoint := "/api/v3/order" in
  let timestamp := time_ms e in
  let params := order_params symbol quantity timestamp in
  query_string ← lift (urlencode params);
  key ← lift secret_bytes;
  let signature := hmac_sha256_hex key query_string in
  let params := (params ++ [("signature", JStr signature)])%list in
  let headers := [("X-MEXC-APIKEY", API_KEY)] in
  let url := String.append BASE_URL endpoint in
  response ← requests_post e
    {| url := url; params := params; headers := headers; timeout := 10 |};
  result ← lift response;
  has_id ← lift (py_in "orderId" result);
  if has_id : bool then
    order_id ← lift (py_getitem result "orderId");
    log (LogSnipeSuccess symbol order_id);;
    mret true
  else
    msg ← lift (py_get result "msg" (JStr "Unknown error"));
    log (LogSnipeFailed symbol msg);;
    mret false.

Definition place_market_order (e : env) (symbol : string) (quantity : json)
  : M bool :=
  emit (CallGateway symbol quantity);;
  try_except (place_market_order_try e symbol quantity)
    (λ ex, log (LogOrderError symbol ex);; mret false).

(** [SNIPE_LIST[symbol]] and [del SNIPE_LIST[symbol]] *)
Definition snipe_getitem (symbol : string) : M json := λ w,
  match dict_get symbol (SNIPE_LIST w) with
  | Some v => (Ok v, w)
  | None => (Raise KeyError, w)
  end.
Definition snipe_delitem (symbol : string) : M unit := λ w,
  if dict_mem symbol (SNIPE_LIST w)
  then (Ok tt, set_SNIPE_LIST (dict_del symbol (SNIPE_LIST w)) w)
  else (Raise KeyError, w).
(** [active_orders[symbol] = st] *)
Definition active_setitem (symbol : string) (st : order_status) : M unit :=
  modify (λ w, set_active_orders (<[symbol := st]> (active_orders w)) w).

(** Lines 109-130: [symbol] passed both membership tests. *)
Definition snipe (e : env) (stream_data : json) (symbol : string) : M unit :=
  c ← lift (py_get stream_data "c" (JInt 0));
  price ← lift (py_float c);
  if float_gt0 price then
    log (LogDetected symbol);;
    c ← lift (py_get stream_data "c" JNull);
    log (LogPrice c);;
    v ← lift (py_get stream_data "v" JNull);
    log (LogVolume v);;
    active_setitem symbol executing;;
    amount ← snipe_getitem symbol;
    success ← place_market_order e symbol amount;
    if success : bool then
      active_setitem symbol completed;;
      snipe_delitem symbol;;
      save_snipe_list e;;
      log (LogRemoved symbol)
    else
      active_setitem symbol failed;;
      log (LogWillNotRetry symbol)
  else mret tt.

Definition on_message_try (e : env) (message : string) : M unit :=
  data ← lift (json_loads message);
  has_stream ← lift (py_in "stream" data);
  is_ticker ← (if has_stream : bool then
                 stream ← lift (py_getitem data "stream");
                 lift (py_in "24hrTicker" stream)
               else mret false);
  if is_ticker : bool then
    stream_data ← lift (py_getitem data "data");
    symbol ← lift (py_getitem stream_data "s");
    key ← lift (py_hash_key symbol);
    snipe_list ← gets SNIPE_LIST;
    active ← gets active_orders;
    match key with
    | Some s =>
        if dict_mem s snipe_list && negb (bool_decide (is_Some (active !! s)))
        then snipe e stream_data s
        else mret tt
    | None => mret tt
    end
  else mret tt.

Definition on_message (e : env) (message : string) : M unit :=
  try_except (on_message_try e message) (λ ex, log (LogMessageError ex)).

Definition on_error : M unit := log LogWsError.

Definition on_close : M unit :=
  modify (set_ws_connected false);;
  log LogClosed;;
  log LogCloseCode.

Fixpoint log_targets (items : pydict) : M unit :=
  match items with
  | [] => mret tt
  | (symbol, amount) :: rest => log (LogTarget symbol amount);; log_targets rest
  end.

Definition stream_name (symbol : string) : string :=
  String.append (str_lower symbol) "@24hrTicker".

Definition subscribe_message (streams : list string) : json :=
  JObj (<["method" := JStr "SUBSCRIPTION"]>
        (<["params" := JArr (JStr <$> streams)]> ∅)).

(** [ws.send(frame)]: the library hands the frame to the socket, and
    raises when the socket is gone. *)
Definition ws_send (outcome : result unit) (frame : string) : M unit :=
  emit (WsSend frame);;
  lift outcome.

Definition on_open (send_outcome : result unit) : M unit :=
  modify (set_ws_connected true);;
  log LogConnected;;
  snipe_list ← gets SNIPE_LIST;
  let streams := stream_name <$> dict_keys snipe_list in
  (match streams with
   | _ :: _ =>
       ws_send send_outcome (json_dumps (subscribe_message streams));;
       log (LogSubscribed (length streams))
   | [] => log LogNoTokens
   end);;
  log LogTargets;;
  snipe_list ← gets SNIPE_LIST;
  log_targets snipe_list;;
  log LogWaiting.

(** How one [ws.run_forever()] ends: it returns once the connection is
    over, or it raises. *)
Inductive session_end :=
  | Returned
  | Raised (e : pyexn).

Definition ws_run_forever (s : session_end) : M unit :=
  emit WsRunForever;;
  match s with
  | Returned => mret tt
  | Raised ex => lift (Raise ex)
  end.

(** One turn of the [while True] of [run_forever]. *)
Definition run_forever_turn (s : session_end) : M unit :=
  try_except (log LogStarting;; ws_run_forever s)
    (λ ex, log (LogCrashed ex);; emit (Sleep 10)).

(** The loop unrolled over the ends of its first sessions; it has no
    [break] and no [return], so the next turn starts as long as a
    session ends. *)
Fixpoint run_forever (sessions : list session_end) : M unit :=
  match sessions with
  | [] => mret tt
  | s :: rest => run_forever_turn s;; run_forever rest
  end.

(** Callbacks delivered one after the other on the feed thread. *)
Fixpoint run_messages (events : list (env * string)) (w : world) : world :=
  match events with
  | [] => w
  | (e, message) :: rest => run_messages rest (on_message e message w).2
  end.
End Program.

(* ------------------------------------------------------------------ *)
(** ** A concrete library and the spec's scenarios

    The theorems below hold for every [PyLib].  To run the handlers on
    the frames of the spec's scenarios, [demo_lib] decodes exactly those
    frames (their quote characters left out of the keys of the table) and
    converts exactly their prices. *)

Definition ascii_lower (c : ascii) : ascii :=
  let n := nat_of_ascii c in
  if (65 <=? n)%nat && (n <=? 90)%nat then ascii_of_nat (n + 32) else c.

Fixpoint lower (s : string) : string :=
  match s with
  | EmptyString => EmptyString
  | String c rest => String (ascii_lower c) (lower rest)
  end.

Definition ticker_data (symbol : string) (fields : list (string * json))
  : gmap string json :=
  <["s" := JStr symbol]> (list_to_map fields).

Definition ticker_frame (stream symbol : string) (fields : list (string * json))
  : gmap string json :=
  <["stream" := JStr stream]>
    (<["data" := JObj (ticker_data symbol fields)]> ∅).

Definition ticker (stream symbol : string) (fields : list (string * json)) : json :=
  JObj (ticker_frame stream symbol fields).

(** 0.05 and 5.0 as binary64 *)
Definition f_0_05 : spec_float := S754_finite false 7205759403792794 (-57).
Definition f_5 : spec_float := S754_finite false 5629499534213120 (-50).

Definition demo_loads (message : string) : result json :=
  if decide (message = "{stream:spot@public.24hrTicker:ABCUSDT,data:{s:ABCUSDT,c:0.0}}")
  then Ok (ticker "spot@public.24hrTicker:ABCUSDT" "ABCUSDT" [("c", JStr "0.0")])
  else if decide (message = "{stream:spot@public.24hrTicker:ABCUSDT,data:{s:ABCUSDT,c:0.05}}")
  then Ok (ticker "spot@public.24hrTicker:ABCUSDT" "ABCUSDT" [("c", JStr "0.05")])
  else if decide (message = "{stream:spot@public.24hrTicker:ABCUSDT,data:{s:ABCUSDT,c:true}}")
  then Ok (ticker "spot@public.24hrTicker:ABCUSDT" "ABCUSDT" [("c", JBool true)])
  else if decide (message = "{stream:[24hrTicker],data:{s:ABCUSDT,c:0.05}}")
  then Ok (JObj (<["stream" := JArr [JStr "24hrTicker"]]>
                 (<["data" := JObj (<["s" := JStr "ABCUSDT"]>
                                    (<["c" := JStr "0.05"]> ∅))]> ∅)))
  else if decide (message = "{stream:spot@public.24hrTicker:DEFUSDT,data:{s:DEFUSDT,c:5.0}}")
  then Ok (ticker "spot@public.24hrTicker:DEFUSDT" "DEFUSDT" [("c", JFloat f_5)])
  else if decide (message = "{id:0,code:0,msg:PONG}")
  then Ok (JObj (<["id" := JInt 0]> (<["code" := JInt 0]> (<["msg" := JStr "PONG"]> ∅))))
  else Raise JSONDecodeError.

Definition demo_float (s : string) : result spec_float :=
  if decide (s = "0.0") then Ok float_zero
  else if decide (s = "0.05") then Ok f_0_05
  else Raise ValueError.

Definition demo_str (v : json) : string :=
  match v with
  | JStr s => s
  | JInt z => pretty z
  | JFloat f => if SFeqb f f_5 then "5.0" else "?"
  | _ => "?"
  end.

Definition demo_urlencode (ps : list (string * json)) : result string :=
  Ok (String.concat "&" ((λ kv, String.append kv.1 (String.append "=" (demo_str kv.2))) <$> ps)).

Definition demo_hmac (key msg : string) : string :=
  String.append "hmac-sha256:" (String.append key (String.append ":" msg)).

Definition demo_dumps (j : json) : string :=
  match j with
  | JObj m =>
      match m !! "params" with
      | Some (JArr l) =>
          String.append "{method:SUBSCRIPTION,params:["
            (String.append
               (String.concat "," ((λ x, match x with JStr s => s | _ => "?" end) <$> l))
               "]}")
      | _ => "?"
      end
  | _ => "?"
  end.

Definition demo_lib : PyLib := {|
  json_loads := demo_loads;
  float_of_str := demo_float;
  urlencode := demo_urlencode;
  hmac_sha256_hex := demo_hmac;
  str_lower := lower;
  json_dumps := demo_dumps;
  environ_get := λ name,
    if decide (name = "MEXC_API_KEY") then Some "demo-key"
    else if decide (name = "MEXC_SECRET_KEY") then Some "demo-secret"
    else None
|}.

(** The process right after [load_snipe_list] read [d] from the file. *)
Definition start_world (d : pydict) : world :=
  {| SNIPE_LIST := d; active_orders := ∅; ws_connected := false;
     config_file := FileHolds d; effects := [] |}.

(** An exchange that fills every order with id 123, one that rejects,
    and a network that is down. *)
Definition filled : request → http_outcome :=
  λ _, HttpResponse (Ok (JObj (<["orderId" := JStr "123"]> ∅))).
Definition rejected : request → http_outcome :=
  λ _, HttpResponse (Ok (JObj (<["code" := JInt 30004]>
                               (<["msg" := JStr "Insufficient balance"]> ∅)))).
Definition unreachable : request → http_outcome :=
  λ _, HttpRaises RequestException.

Definition env_of (post : request → http_outcome) (fw : write_outcome) : env :=
  {| time_ms := 1700000000000; http_post := post; file_write := fw |}.

Definition tick_0 : string :=
  "{stream:spot@public.24hrTicker:ABCUSDT,data:{s:ABCUSDT,c:0.0}}".
Definition tick_pos : string :=
  "{stream:spot@public.24hrTicker:ABCUSDT,data:{s:ABCUSDT,c:0.05}}".
Definition tick_true : string :=
  "{stream:spot@public.24hrTicker:ABCUSDT,data:{s:ABCUSDT,c:true}}".
Definition tick_list_stream : string :=
  "{stream:[24hrTicker],data:{s:ABCUSDT,c:0.05}}".

Definition abc_world : world := start_world [("ABCUSDT", JFloat f_5)].

Definition abc_pos_data : gmap string json :=
  ticker_data "ABCUSDT" [("c", JStr "0.05")].
Definition abc_zero_data : gmap string json :=
  ticker_data "ABCUSDT" [("c", JStr "0.0")].
Definition abc_stream : json := JStr "spot@public.24hrTicker:ABCUSDT".

Definition good_env : env := env_of filled WriteOk.
Definition readonly_env : env := env_of filled OpenFails.
Definition reject_env : env := env_of rejected WriteOk.

(** Two watched symbols. *)
Definition two_world : world :=
  start_world [("ABCUSDT", JFloat f_5); ("XYZUSDT", JInt 3)].

(** Three ticks in a row for the same symbol. *)
Definition burst : list (env * string) :=
  [(good_env, tick_pos); (good_env, tick_pos); (reject_env, tick_pos)].

(** The request the demo gateway posts for ABCUSDT. *)
Definition abc_request : request :=
  {| url := "https://api.mexc.com/api/v3/order";
     params :=
       [("symbol", JStr "ABCUSDT"); ("side", JStr "BUY"); ("type", JStr "MARKET");
        ("quoteOrderQty", JFloat f_5); ("timestamp", JInt 1700000000000);
        ("signature",
         JStr "hmac-sha256:demo-secret:symbol=ABCUSDT&side=BUY&type=MARKET&quoteOrderQty=5.0&timestamp=1700000000000")];
     headers := [("X-MEXC-APIKEY", Some "demo-key")];
     timeout := 10 |}.

(** The gateway calls among a world's effects, and those for one symbol. *)
Definition is_call (x : effect) : bool :=
  match x with CallGateway _ _ => true | _ => false end.
Definition is_call_for (symbol : string) (x : effect) : bool :=
  match x with CallGateway s _ => bool_decide (s = symbol) | _ => false end.
Definition gateway_calls (w : world) : list effect :=
  List.filter is_call (effects w).
Definition calls_for (symbol : string) (w : world) : nat :=
  length (List.filter (is_call_for symbol) (effects w)).

(* ------------------------------------------------------------------ *)
(** ** Vocabulary of the properties *)

(** The effects [w'] has on top of those of an earlier world [w]. *)
Definition new_effects (w w' : world) : list effect :=
  drop (length (effects w)) (effects w').

Definition is_log (x : effect) : bool :=
  match x with Log _ => true | _ => false end.

(** Globals and file are as before and nothing but log lines went out:
    no gateway call, no request, no frame. *)
Definition no_action (w w' : world) : Prop :=
  SNIPE_LIST w' = SNIPE_LIST w ∧
  active_orders w' = active_orders w ∧
  ws_connected w' = ws_connected w ∧
  config_file w' = config_file w ∧
  ∃ lines, effects w' = (effects w ++ lines)%list ∧ forallb is_log lines = true.

(** Is [symbol] in the watch list as the file holds it? *)
Definition persisted_mem (symbol : string) (f : file_state) : bool :=
  match f with
  | FileHolds d => dict_mem symbol d
  | FileMissing | FilePartial => false
  end.

(** Every symbol was ordered at most once, and a symbol that was ordered
    is claimed in [active_orders]. *)
Definition claim_inv (w : world) : Prop :=
  ∀ S, calls_for S w = 0%nat ∨
       (calls_for S w = 1%nat ∧ is_Some (active_orders w !! S)).

(** The effects of one turn of the reconnect loop, by the way its
    session ended. *)
Definition turn_effects (s : session_end) : list effect :=
  match s with
  | Returned => [Log LogStarting; WsRunForever]
  | Raised ex => [Log LogStarting; WsRunForever; Log (LogCrashed ex); Sleep 10]
  end.

(** The frames handed to [ws.send]. *)
Definition sent_frames (l : list effect) : list string :=
  omap (λ x, match x with WsSend f => Some f | _ => None end) l.

(** [x <= 0] on binary64: either zero, a negative number, minus infinity. *)
Definition float_le0 (x : spec_float) : bool := SFleb x float_zero.

Section Vocabulary.
Context {lib : PyLib}.

(** The frame decodes to an object whose [stream] entry contains
    [24hrTicker] and whose [data] entry is an object [sd] with the
    [str] [symbol] under [s]: a ticker event for [symbol]. *)
Definition ticker_event (message : string) (symbol : string)
    (sd : gmap string json) : Prop :=
  ∃ d stream,
    json_loads message = Ok (JObj d) ∧
    d !! "stream" = Some stream ∧
    py_in "24hrTicker" stream = Ok true ∧
    d !! "data" = Some (JObj sd) ∧
    sd !! "s" = Some (JStr symbol).

(** The last-price entry [c] of a ticker event is missing, is not a
    number ([float] raises on it, or yields NaN), or is a number that
    is zero or negative.  Python's [bool] is an [int]: [false] is the
    number 0 and [true] the number 1. *)
Inductive price_not_positive (c : option json) : Prop :=
  | price_missing :
      c = None → price_not_positive c
  | price_not_numeric v ex :
      c = Some v → py_float v = Raise ex → price_not_positive c
  | price_nan v :
      c = Some v → py_float v = Ok S754_nan → price_not_positive c
  | price_zero_or_negative v p :
      c = Some v → py_float v = Ok p → float_le0 p = true →
      price_not_positive c.

(** The last price of the event is a number above zero. *)
Definition price_positive (sd : gmap string json) : Prop :=
  ∃ c p, sd !! "c" = Some c ∧ py_float c = Ok p ∧ float_gt0 p = true.


(** A ticker event for [symbol] with a positive last price. *)
Definition positive_tick (symbol : string) (ev : env * string) : Prop :=
  ∃ sd, ticker_event ev.2 symbol sd ∧ price_positive sd.

(** A ticker event for [symbol], whatever its price. *)
Definition tick_for (symbol : string) (ev : env * string) : Prop :=
  ∃ sd, ticker_event ev.2 symbol sd.
End Vocabulary.

Section Outcome.
Context {lib : PyLib}.

(** What the file holds after [save_snipe_list] ran on the mapping [d]. *)
Definition file_after_save (e : env) (d : pydict) (before : file_state)
  : file_state :=
  match file_write e with
  | WriteOk => FileHolds d
  | OpenFails => before
  | DumpFails => FilePartial
  end.

(** [w'] is [w] after one snipe of [symbol] for [amount]: one gateway
    call, whose return value [b] settles the status, the watch list
    and the file. *)
Definition fired (e : env) (symbol : string) (amount : json) (w w' : world)
  : Prop :=
  ∃ b l,
    (∀ w0, (place_market_order e symbol amount w0).1 = Ok b) ∧
    active_orders w' =
      <[symbol := if b then completed else failed]> (active_orders w) ∧
    SNIPE_LIST w' =
      (if b then dict_del symbol (SNIPE_LIST w) else SNIPE_LIST w) ∧
    config_file w' =
      (if b then file_after_save e (dict_del symbol (SNIPE_LIST w)) (config_file w)
       else config_file w) ∧
    ws_connected w' = ws_connected w ∧
    effects w' = (effects w ++ l)%list ∧
    List.filter is_call l = [CallGateway symbol amount].
End Outcome.

(* ------------------------------------------------------------------ *)
(** ** Startup: [load_snipe_list] and the head of [main]

    The startup code logs lines the handlers never log; they are kept on
    a console of their own beside the world. *)

Inductive startup_line :=
  | LogLoaded (n : nat)
  | LogConfigNotFound
  | LogCreatedDefault
  | LogLoadError (e : pyexn)
  | LogBanner
  | LogEdition
  | LogRule
  | LogKeysMissing
  | LogKeysHintSettings
  | LogKeysHintAdd
  | LogKeysLoaded
  | LogNoTargets
  | LogAddTokensHint
  | LogTargetCount (n : nat)
  | LogStartingMonitor
  | LogRunsForever.

Record boot := {
  process : world;
  console : list startup_line
}.

Definition B (A : Type) : Type := boot → result A * boot.

Global Instance B_ret : MRet B := λ A a b, (Ok a, b).
Global Instance B_bind : MBind B := λ A C f m b,
  match m b with
  | (Ok a, b') => f a b'
  | (Raise e, b') => (Raise e, b')
  end.

Definition say (l : startup_line) : B unit := λ b,
  (Ok tt, {| process := process b; console := (console b ++ [l])%list |}).

(** A step on the globals and the file, run from the startup code. *)
Definition in_process {A} (m : M A) : B A := λ b,
  let (r, w) := m (process b) in
  (r, {| process := w; console := console b |}).

Definition try_boot {A} (body : B A) (handler : pyexn → B A) : B A := λ b,
  match body b with
  | (Ok a, b') => (Ok a, b')
  | (Raise e, b') => handler e b'
  end.

(** What the file system answers during [load_snipe_list]. *)
Record startup_env := {
  open_read : result unit;         (* [open(..., 'r')] *)
  create_default : write_outcome   (* writing the default file *)
}.

(** 2.0 as binary64 *)
Definition f_2 : spec_float := S754_finite false 4503599627370496 (-51).

Definition default_config : pydict := [("NSGUSDT", JFloat f_2)].

(** [os.path.exists('snipe_config.json')] *)
Definition path_exists : M bool :=
  gets (λ w, match config_file w with FileMissing => false | _ => true end).

(** [with open('snipe_config.json', 'r') as f: json.load(f)].  A
    [file_state] holds mappings only: a file whose JSON is not an object
    (after which [SNIPE_LIST] would not be a dict) is not covered. *)
Definition read_config (se : startup_env) : M pydict := λ w,
  match open_read se with
  | Raise ex => (Raise ex, w)
  | Ok _ =>
      match config_file w with
      | FileHolds d => (Ok d, w)
      | FilePartial => (Raise JSONDecodeError, w)
      | FileMissing => (Raise OSError, w)
      end
  end.

(** [with open('snipe_config.json', 'w') as f: json.dump(default_config, f, indent=2)] *)
Definition write_default (se : startup_env) (d : pydict) : M unit := λ w,
  match create_default se with
  | WriteOk => (Ok tt, set_config_file (FileHolds d) w)
  | OpenFails => (Raise OSError, w)
  | DumpFails => (Raise OSError, set_config_file FilePartial w)
  end.

Definition load_snipe_list_try (se : startup_env) : B unit :=
  found ← in_process path_exists;
  if found : bool then
    d ← in_process (read_config se);
    in_process (modify (set_SNIPE_LIST d));;
    say (LogLoaded (length d))
  else
    say LogConfigNotFound;;
    in_process (write_default se default_config);;
    in_process (modify (set_SNIPE_LIST default_config));;
    say LogCreatedDefault.

Definition load_snipe_list (se : startup_env) : B unit :=
  try_boot (load_snipe_list_try se) (λ ex, say (LogLoadError ex)).

(** [not k] for a key read from the environment: [None] and the empty
    string are false. *)
Definition falsy (k : option string) : bool :=
  match k with
  | None => true
  | Some s => bool_decide (s = "")
  end.

(** How the head of [main] ends: it returns, or it goes on to
    [start_websocket()] and the heartbeat loop. *)
Inductive startup_result := Halted | Proceeds.

Section Startup.
Context {lib : PyLib}.

(** [main] up to the call of [start_websocket()] (lines 197-220). *)
Definition main_startup (se : startup_env) : B startup_result :=
  say LogBanner;;
  say LogEdition;;
  say LogRule;;
  if falsy API_KEY || falsy SECRET_KEY then
    say LogKeysMissing;;
    say LogKeysHintSettings;;
    say LogKeysHintAdd;;
    mret Halted
  else
    say LogKeysLoaded;;
    load_snipe_list se;;
    snipe_list ← in_process (gets SNIPE_LIST);
    (match snipe_list with
     | [] => say LogNoTargets;; say LogAddTokensHint
     | _ :: _ => say (LogTargetCount (length snipe_list))
     end);;
    say LogStartingMonitor;;
    say LogRunsForever;;
    mret Proceeds.
End Startup.

(** The process as the module is imported: empty globals, the file as
    the disk has it, nothing logged. *)
Definition fresh_boot (file : file_state) : boot :=
  {| process := {| SNIPE_LIST := []; active_orders := ∅; ws_connected := false;
                   config_file := file; effects := [] |};
     console := [] |}.

(** A restart: a new process over the file the old one left. *)
Definition restart (w : world) : boot := fresh_boot (config_file w).

(** A disk that can be read and written, and the demo library without
    its two keys in the environment. *)
Definition disk_ok : startup_env := {| open_read := Ok tt; create_default := WriteOk |}.

Definition keyless_lib : PyLib := {|
  json_loads := demo_loads;
  float_of_str := demo_float;
  urlencode := demo_urlencode;
  hmac_sha256_hex := demo_hmac;
  str_lower := lower;
  json_dumps := demo_dumps;
  environ_get := λ _, None
|}.

(* ------------------------------------------------------------------ *)
(** ** Vocabulary of the further properties *)

Definition is_post (x : effect) : bool :=
  match x with HttpPost _ => true | _ => false end.

(** The requests posted, and those whose [symbol] parameter is [symbol]. *)
Definition posts (l : list effect) : list request :=
  omap (λ x, match x with HttpPost r => Some r | _ => None end) l.

Definition is_post_for (symbol : string) (r : request) : bool :=
  match dict_get "symbol" (params r) with
  | Some (JStr s) => bool_decide (s = symbol)
  | _ => false
  end.

Definition posts_for (symbol : string) (w : world) : nat :=
  length (List.filter (is_post_for symbol) (posts (effects w))).

(** The gateway calls, as (symbol, amount) pairs. *)
Definition calls (l : list effect) : list (string * json) :=
  omap (λ x, match x with CallGateway s a => Some (s, a) | _ => None end) l.

Definition count_connects (l : list effect) : nat :=
  length (List.filter (λ x, match x with WsRunForever => true | _ => false end) l).
Definition count_sleeps (l : list effect) : nat :=
  length (List.filter (λ x, match x with Sleep _ => true | _ => false end) l).
Definition count_raised (sessions : list session_end) : nat :=
  length (List.filter (λ s, match s with Raised _ => true | Returned => false end)
            sessions).

Section Gateway.
Context {lib : PyLib}.

(** One connection, as the feed thread lives it: [on_open], the frames
    of the session through [on_message], then [on_close].  [send] is
    what [ws.send] did in [on_open]. *)
Definition run_session (session : result unit * list (env * string)) (w : world)
  : world :=
  (on_close (run_messages session.2 (on_open session.1 w).2)).2.

(** The connections of the reconnect loop, one after the other. *)
Fixpoint run_sessions (sessions : list (result unit * list (env * string)))
    (w : world) : world :=
  match sessions with
  | [] => w
  | s :: rest => run_sessions rest (run_session s w)
  end.

(** What one [place_market_order] call puts out (it is the same in
    every world). *)
Definition order_effects (e : env) (symbol : string) (amount : json)
  : list effect :=
  effects (place_market_order e symbol amount (start_world [])).2.
End Gateway.

(* ------------------------------------------------------------------ *)
(** ** The claims' own words on prices, frames and the order request *)

Section Stated.
Context {lib : PyLib}.




(** The request the claim describes: the five parameters in this order,
    then the signature over their encoding [query_string] with the key
    [key]; the order endpoint, the API-key header, a 10-second timeout. *)
Definition order_request (symbol : string) (quantity : json) (timestamp : Z)
    (key query_string : string) : request :=
  {| url := "https://api.mexc.com/api/v3/order";
     params :=
       [("symbol", JStr symbol); ("side", JStr "BUY"); ("type", JStr "MARKET");
        ("quoteOrderQty", quantity); ("timestamp", JInt timestamp);
        ("signature", JStr (hmac_sha256_hex key query_string))];
     headers := [("X-MEXC-APIKEY", API_KEY)];
     timeout := 10 |}.
End Stated.


(* ------------------------------------------------------------------ *)
(** ** Worlds, dictionaries, floats: basic facts *)

Lemma add_effects_assoc l1 l2 w :
  add_effects l2 (add_effects l1 w) = add_effects (l1 ++ l2) w.
Proof. unfold add_effects; simpl. by rewrite <- app_assoc. Qed.

Lemma add_effects_nil w : add_effects [] w = w.
Proof. destruct w; unfold add_effects; simpl. by rewrite app_nil_r. Qed.

Lemma no_action_refl w : no_action w w.
Proof. repeat split. exists []. by rewrite app_nil_r. Qed.

Lemma no_action_log l w : no_action w (add_effects [Log l] w).
Proof. repeat split. by exists [Log l]. Qed.

Lemma py_getitem_Ok c k v :
  py_getitem c k = Ok v → ∃ m, c = JObj m ∧ m !! k = Some v.
Proof.
  destruct c; simpl; try discriminate.
  destruct (m !! k) eqn:E; intros; simplify_eq. eauto.
Qed.

Lemma py_hash_key_Some k s : py_hash_key k = Ok (Some s) → k = JStr s.
Proof. destruct k; simpl; intros; simplify_eq; done. Qed.

Lemma dict_mem_get k d : dict_mem k d = true ↔ is_Some (dict_get k d).
Proof. unfold dict_mem. by rewrite bool_decide_eq_true. Qed.

Ltac run_M :=
  unfold try_except, mbind, M_bind, mret, M_ret, lift, gets, log, emit, modify,
    add_effect in *.

Lemma filter_no_calls l :
  forallb (λ x, negb (is_call x)) l = true → List.filter is_call l = [].
Proof.
  induction l as [|x l IH]; simpl; [done|].
  intros [Hx Hl]%andb_prop. destruct (is_call x); [done|]. auto.
Qed.

Ltac not_ticker Hload :=
  left; split; [|eauto];
  intros ? ? (? & ? & Hld & ? & ? & ? & ?);
  rewrite Hload in Hld; simplify_eq/=;
  repeat match goal with
         | Hx : ?a !! ?k = Some _, Hm : context [match ?a !! ?k with _ => _ end] |- _ =>
             rewrite Hx in Hm
         end;
  try congruence.

Section Properties.
Context {lib : PyLib}.

Lemma place_market_order_frame e s q w :
  ∃ b tail,
    place_market_order e s q w
      = (Ok b, add_effects (CallGateway s q :: tail) w) ∧
    forallb (λ x, negb (is_call x)) tail = true.
Proof.
  unfold place_market_order, place_market_order_try, requests_post, secret_bytes.
  run_M.
  repeat case_match; simplify_eq/=; rewrite ?add_effects_assoc; simpl;
    (eexists _, _; split; [reflexivity | reflexivity]).
Qed.

Lemma place_market_order_result_indep e s q w1 w2 :
  (place_market_order e s q w1).1 = (place_market_order e s q w2).1.
Proof.
  unfold place_market_order, place_market_order_try, requests_post, secret_bytes.
  run_M.
  repeat case_match; simplify_eq/=; congruence.
Qed.

Lemma on_message_try_cases e m w :
  ((∀ S sd, ¬ ticker_event m S sd) ∧ ∃ r, on_message_try e m w = (r, w)) ∨
  (∃ S sd, ticker_event m S sd ∧
     on_message_try e m w =
       if dict_mem S (SNIPE_LIST w)
          && negb (bool_decide (is_Some (active_orders w !! S)))
       then snipe e (JObj sd) S w else (Ok tt, w)).
Proof.
  unfold on_message_try. run_M.
  destruct (json_loads m) as [data|ex] eqn:Hload; [|not_ticker Hload].
  destruct (py_in "stream" data) as [[]|ex] eqn:Hin; [|not_ticker Hload..].
  2:{ rewrite bool_decide_eq_false in Hin. destruct Hin. eauto. }
  destruct (py_getitem data "stream") as [stream|ex] eqn:Hst; [|not_ticker Hload].
  apply py_getitem_Ok in Hst as (d & -> & Hst).
  destruct (py_in "24hrTicker" stream) as [[]|ex] eqn:Htk; [|not_ticker Hload..].
  destruct (py_getitem (JObj d) "data") as [stream_data|ex] eqn:Hd;
    [|not_ticker Hload].
  apply py_getitem_Ok in Hd as (d' & ? & Hd). simplify_eq.
  destruct (py_getitem stream_data "s") as [symbol|ex] eqn:Hs; [|not_ticker Hload].
  apply py_getitem_Ok in Hs as (sd & -> & Hs).
  destruct (py_hash_key symbol) as [[s|]|ex] eqn:Hk; [|not_ticker Hload..].
  apply py_hash_key_Some in Hk as ->.
  right. exists s, sd. split; [by exists d', stream|].
  by destruct (_ && _).
Qed.

Lemma float_le0_not_gt0 p : float_le0 p = true → float_gt0 p = false.
Proof. by destruct p as [[]|[]| |[] ? ?]. Qed.


Lemma snipe_skips e sd S w :
  ¬ price_positive sd → ∃ r, snipe e (JObj sd) S w = (r, w).
Proof.
  intros Hn. unfold snipe. run_M. simpl.
  destruct (py_float (default (JInt 0) (sd !! "c"))) as [p|ex] eqn:Hp; [|eauto].
  destruct (float_gt0 p) eqn:Hgt; [|eauto].
  destruct Hn. destruct (sd !! "c") as [c|] eqn:Hc.
  - by exists c, p.
  - simpl in Hp. vm_compute in Hp. by simplify_eq.
Qed.

Lemma snipe_fires e sd S a w :
  price_positive sd → dict_get S (SNIPE_LIST w) = Some a →
  ∃ w', snipe e (JObj sd) S w = (Ok tt, w') ∧ fired e S a w w'.
Proof.
  intros (c & p & Hc & Hp & Hgt) Hget. unfold snipe. run_M. simpl.
  rewrite Hc. simpl. rewrite Hp, Hgt.
  unfold active_setitem, snipe_getitem. run_M. simpl. rewrite Hget.
  match goal with |- context [place_market_order e S a ?w1] =>
    destruct (place_market_order_frame e S a w1) as (b & tail & Heq & Hnc);
    rewrite Heq end.
  assert (Hb : ∀ w0, (place_market_order e S a w0).1 = Ok b).
  { intros w0. erewrite place_market_order_result_indep, Heq. done. }
  destruct b.
  - unfold snipe_delitem, save_snipe_list, write_config. run_M. simpl.
    assert (dict_mem S (SNIPE_LIST w) = true) as -> by (apply dict_mem_get; eauto).
    destruct (file_write e) eqn:Hfw; simpl;
      (eexists; split; [reflexivity|]);
      (exists true; eexists; unfold file_after_save; rewrite Hfw;
       split_and!; simpl; try done;
       [by rewrite insert_insert_eq
       |rewrite <- !app_assoc; reflexivity
       |simpl; rewrite List.filter_app, (filter_no_calls _ Hnc); done]).
  - eexists; split; [reflexivity|].
    exists false; eexists. split_and!; simpl; try done;
       [by rewrite insert_insert_eq
       |rewrite <- !app_assoc; reflexivity
       |simpl; rewrite List.filter_app, (filter_no_calls _ Hnc); done].
Qed.


Lemma on_message_not_ticker e m w :
  (∀ S sd, ¬ ticker_event m S sd) → no_action w (on_message e m w).2.
Proof.
  intros Hn. unfold on_message. run_M.
  destruct (on_message_try_cases e m w) as [(_ & r & ->)|(S & sd & Ht & _)].
  - destruct r; simpl; [apply no_action_refl | apply no_action_log].
  - by destruct (Hn S sd).
Qed.

Lemma ticker_event_functional m S sd S' sd' :
  ticker_event m S sd → ticker_event m S' sd' → S = S' ∧ sd = sd'.
Proof.
  intros (d & st & H1 & H2 & H3 & H4 & H5) (d' & st' & H1' & H2' & H3' & H4' & H5').
  rewrite H1 in H1'. simplify_eq. done.
Qed.

Lemma on_message_ticker e m w S sd :
  ticker_event m S sd →
  on_message e m w =
    try_except
      (if dict_mem S (SNIPE_LIST w)
          && negb (bool_decide (is_Some (active_orders w !! S)))
       then snipe e (JObj sd) S else mret tt)
      (λ ex, log (LogMessageError ex)) w.
Proof.
  intros Ht. unfold on_message, try_except.
  destruct (on_message_try_cases e m w) as [(Hn & _)|(S' & sd' & Ht' & ->)].
  - by destruct (Hn S sd).
  - destruct (ticker_event_functional _ _ _ _ _ Ht Ht') as [-> ->].
    by destruct (_ && _).
Qed.

Lemma on_message_skips e m w S sd :
  ticker_event m S sd →
  dict_get S (SNIPE_LIST w) = None ∨ is_Some (active_orders w !! S)
    ∨ ¬ price_positive sd →
  no_action w (on_message e m w).2.
Proof.
  intros Ht Hc. rewrite (on_message_ticker _ _ _ _ _ Ht). unfold try_except.
  destruct (dict_mem S (SNIPE_LIST w)) eqn:Hmem; simpl;
    [|apply no_action_refl].
  destruct (bool_decide (is_Some (active_orders w !! S))) eqn:Hact; simpl;
    [apply no_action_refl|].
  destruct Hc as [Hc|[Hc|Hc]].
  - apply dict_mem_get in Hmem as [? ?]. congruence.
  - apply bool_decide_eq_false in Hact. done.
  - destruct (snipe_skips e sd S w Hc) as (r & ->).
    destruct r; simpl; [apply no_action_refl | apply no_action_log].
Qed.

Lemma on_message_fires e m w S sd a :
  ticker_event m S sd → price_positive sd →
  dict_get S (SNIPE_LIST w) = Some a → active_orders w !! S = None →
  fired e S a w (on_message e m w).2.
Proof.
  intros Ht Hp Hget Hact. rewrite (on_message_ticker _ _ _ _ _ Ht).
  unfold try_except.
  assert (dict_mem S (SNIPE_LIST w) = true) as -> by (apply dict_mem_get; eauto).
  rewrite bool_decide_eq_false_2 by (rewrite Hact; by intros [? ?]). simpl.
  by destruct (snipe_fires e sd S a w Hp Hget) as (w' & -> & Hf).
Qed.

(** Every callback either does nothing or snipes the symbol of a
    positive ticker event that is watched and unclaimed. *)
Lemma on_message_inv e m w :
  no_action w (on_message e m w).2 ∨
  ∃ S sd a, ticker_event m S sd ∧ price_positive sd ∧
    dict_get S (SNIPE_LIST w) = Some a ∧ active_orders w !! S = None ∧
    fired e S a w (on_message e m w).2.
Proof.
  destruct (on_message_try_cases e m w) as [(Hn & _)|(S & sd & Ht & _)].
  - left. by apply on_message_not_ticker.
  - destruct (dict_get S (SNIPE_LIST w)) as [a|] eqn:Hget;
      [|left; eapply on_message_skips; eauto].
    destruct (active_orders w !! S) as [st|] eqn:Hact;
      [left; eapply on_message_skips; eauto|].
    destruct (py_float (default (JInt 0) (sd !! "c"))) as [p|ex] eqn:Hp.
    + destruct (float_gt0 p) eqn:Hgt.
      * destruct (sd !! "c") as [c|] eqn:Hc; simpl in Hp.
        -- right. exists S, sd, a. split_and!; try done.
           ++ by exists c, p.
           ++ eapply on_message_fires; eauto. by exists c, p.
        -- vm_compute in Hp. by simplify_eq.
      * left. eapply on_message_skips; eauto. right; right.
        intros (c & q & Hc & Hq & Hgq). rewrite Hc in Hp. simpl in Hp.
        congruence.
    + left. eapply on_message_skips; eauto. right; right.
      intros (c & q & Hc & Hq & Hgq). rewrite Hc in Hp. simpl in Hp.
      congruence.
Qed.

(** *** Counting gateway calls *)

Lemma filter_call_for S l :
  List.filter (is_call_for S) l = List.filter (is_call_for S) (List.filter is_call l).
Proof.
  induction l as [|x l IH]; simpl; [done|].
  destruct x; simpl; try done. destruct (bool_decide (symbol = S)); simpl; congruence.
Qed.

Lemma filter_logs_call_for S l :
  forallb is_log l = true → List.filter (is_call_for S) l = [].
Proof.
  induction l as [|x l IH]; simpl; [done|].
  intros [Hx Hl]%andb_prop. destruct x; simpl in *; try done. auto.
Qed.

Lemma calls_for_no_action S w w' :
  no_action w w' → calls_for S w' = calls_for S w.
Proof.
  intros (_ & _ & _ & _ & l & E & Hl). unfold calls_for.
  rewrite E, List.filter_app, (filter_logs_call_for _ _ Hl). by rewrite app_nil_r.
Qed.

Lemma calls_for_fired e S0 a w w' S :
  fired e S0 a w w' →
  calls_for S w' = (calls_for S w + if decide (S0 = S) then 1 else 0)%nat.
Proof.
  intros (b & l & _ & _ & _ & _ & _ & E & Hl). unfold calls_for.
  rewrite E, List.filter_app, length_app. f_equal.
  rewrite filter_call_for, Hl. simpl.
  destruct (decide (S0 = S)); [by rewrite bool_decide_eq_true_2
                              |by rewrite bool_decide_eq_false_2].
Qed.


Lemma on_message_claim_inv e m w :
  claim_inv w → claim_inv (on_message e m w).2.
Proof.
  intros Hinv S.
  destruct (on_message_inv e m w)
    as [Hno|(S0 & sd & a & _ & _ & _ & Hact & Hf)].
  - rewrite (calls_for_no_action _ _ _ Hno).
    destruct Hno as (_ & -> & _). apply Hinv.
  - rewrite (calls_for_fired _ _ _ _ _ S Hf).
    destruct Hf as (b & l & _ & -> & _).
    destruct (decide (S0 = S)) as [->|Hne].
    + right. destruct (Hinv S) as [->|[_ [? ?]]]; [|congruence].
      split; [done|]. rewrite lookup_insert_eq. eauto.
    + rewrite Nat.add_0_r, lookup_insert_ne by done. apply Hinv.
Qed.

Lemma run_messages_claim_inv evs w :
  claim_inv w → claim_inv (run_messages evs w).
Proof.
  revert w. induction evs as [|[e m] evs IH]; intros w Hinv; simpl; [done|].
  apply IH, on_message_claim_inv, Hinv.
Qed.

Lemma on_message_claimed e m w S :
  is_Some (active_orders w !! S) →
  is_Some (active_orders (on_message e m w).2 !! S) ∧
  calls_for S (on_message e m w).2 = calls_for S w.
Proof.
  intros Hc.
  destruct (on_message_inv e m w)
    as [Hno|(S0 & sd & a & _ & _ & _ & Hact & Hf)].
  - rewrite (calls_for_no_action _ _ _ Hno).
    destruct Hno as (_ & -> & _). done.
  - rewrite (calls_for_fired _ _ _ _ _ S Hf).
    destruct Hf as (b & l & _ & -> & _).
    destruct (decide (S0 = S)) as [->|Hne].
    + destruct Hc. congruence.
    + rewrite lookup_insert_ne by done. split; [done|lia].
Qed.

Lemma run_messages_claimed evs w S :
  is_Some (active_orders w !! S) →
  is_Some (active_orders (run_messages evs w) !! S) ∧
  calls_for S (run_messages evs w) = calls_for S w.
Proof.
  revert w. induction evs as [|[e m] evs IH]; intros w Hc; simpl; [done|].
  destruct (on_message_claimed e m w S Hc) as [Hc' <-]. by apply IH.
Qed.

Lemma start_claim_inv w : gateway_calls w = [] → claim_inv w.
Proof.
  intros Hg S. left. unfold calls_for. unfold gateway_calls in Hg.
  by rewrite filter_call_for, Hg.
Qed.

(** C1. Over any sequence of frames handed to [on_message] by a process
    that starts with nothing claimed and no order placed, every symbol
    gets at most one [place_market_order] call; and when the frames are
    a non-empty run of ticker events for one watched symbol, each with a
    price above zero, that symbol gets exactly one call. *)
Theorem at_most_one_order_per_symbol (evs : list (env * string)) (w : world)
    (S : string) :
  active_orders w = ∅ → gateway_calls w = [] →
  (calls_for S (run_messages evs w) ≤ 1)%nat ∧
  (evs ≠ [] → is_Some (dict_get S (SNIPE_LIST w)) →
   Forall (positive_tick S) evs →
   calls_for S (run_messages evs w) = 1%nat).
Proof.
  intros Hact Hcalls. split.
  - destruct (run_messages_claim_inv evs w (start_claim_inv w Hcalls) S)
      as [->|[-> _]]; lia.
  - destruct evs as [|[e m] evs]; [done|]. intros _ [a Hget] Hall.
    apply Forall_cons in Hall as [(sd & Ht & Hp) _]. simpl in *.
    assert (Hf : fired e S a w (on_message e m w).2).
    { eapply on_message_fires; eauto. rewrite Hact. apply lookup_empty. }
    pose proof (calls_for_fired _ _ _ _ _ S Hf) as Hn.
    rewrite decide_True in Hn by done.
    destruct Hf as (b & l & _ & Ha & _).
    destruct (run_messages_claimed evs (on_message e m w).2 S) as [_ ->].
    { rewrite Ha, lookup_insert_eq. eauto. }
    rewrite Hn. unfold calls_for. unfold gateway_calls in Hcalls.
    by rewrite filter_call_for, Hcalls.
Qed.




Lemma dict_get_del k d : dict_get k (dict_del k d) = None.
Proof.
  induction d as [|[k' v] d IH]; simpl; [done|].
  destruct (decide (k' = k)) as [->|Hne]; [done|].
  simpl. by rewrite decide_False.
Qed.

Lemma dict_get_del_ne k k' d : k ≠ k' → dict_get k' (dict_del k d) = dict_get k' d.
Proof.
  intros Hne. induction d as [|[k0 v] d IH]; simpl; [done|].
  destruct (decide (k0 = k)) as [->|Hk]; simpl.
  - by rewrite decide_False.
  - by rewrite IH.
Qed.

Lemma claimed_stays_quiet evs w S :
  is_Some (active_orders w !! S) →
  let w2 := run_messages evs w in
  calls_for S w2 = calls_for S w ∧
  ∀ e m, tick_for S (e, m) → no_action w2 (on_message e m w2).2.
Proof.
  intros Hc. destruct (run_messages_claimed evs w S Hc) as [Hc2 Hn].
  split; [done|]. intros e m (sd & Ht). simpl in Ht.
  eapply on_message_skips; eauto.
Qed.

(** C4 (amended). When [place_market_order] returns [True] for the symbol
    of a ticker event, the symbol is marked ['completed'], it is gone
    from [SNIPE_LIST], [save_snipe_list] has run on the remaining
    mapping (so the file holds that mapping, without the symbol, whenever
    the write went through; a write that fails is logged and leaves the
    file stale or cut short), and from then on no frame causes a gateway
    call for the symbol and no ticker event for it changes anything. *)
Theorem success_completes_and_unwatches (e : env) (m : string) (w : world)
    (S : string) (sd : gmap string json) (a : json) :
  ticker_event m S sd → price_positive sd →
  dict_get S (SNIPE_LIST w) = Some a → active_orders w !! S = None →
  (place_market_order e S a w).1 = Ok true →
  let w' := (on_message e m w).2 in
  active_orders w' !! S = Some completed ∧
  dict_get S (SNIPE_LIST w') = None ∧
  config_file w' = file_after_save e (SNIPE_LIST w') (config_file w) ∧
  (file_write e = WriteOk →
   config_file w' = FileHolds (SNIPE_LIST w') ∧
   persisted_mem S (config_file w') = false) ∧
  ∀ evs, let w2 := run_messages evs w' in
    calls_for S w2 = calls_for S w' ∧
    ∀ e2 m2, tick_for S (e2, m2) → no_action w2 (on_message e2 m2 w2).2.
Proof.
  intros Ht Hp Hget Hact Hok w'.
  destruct (on_message_fires e m w S sd a Ht Hp Hget Hact)
    as (b & l & Hb & Ha & Hs & Hf & _).
  fold w' in Ha, Hs, Hf. rewrite Hb in Hok. simplify_eq.
  assert (Hgone : dict_get S (SNIPE_LIST w') = None)
    by (rewrite Hs; apply dict_get_del).
  split_and!.
  - by rewrite Ha, lookup_insert_eq.
  - done.
  - by rewrite Hf, Hs.
  - intros Hw. rewrite Hf, Hs. unfold file_after_save. rewrite Hw.
    split; [done|]. simpl. unfold dict_mem. rewrite dict_get_del.
    apply bool_decide_eq_false_2. by intros [? ?].
  - intros evs. apply claimed_stays_quiet. rewrite Ha, lookup_insert_eq. eauto.
Qed.

(** C5. When [place_market_order] returns [False] for the symbol of a
    ticker event, the symbol is marked ['failed'], [SNIPE_LIST] and the
    file are exactly as before (no removal, no save), and no later frame
    causes another gateway call for the symbol. *)
Theorem failure_is_terminal (e : env) (m : string) (w : world)
    (S : string) (sd : gmap string json) (a : json) :
  ticker_event m S sd → price_positive sd →
  dict_get S (SNIPE_LIST w) = Some a → active_orders w !! S = None →
  (place_market_order e S a w).1 = Ok false →
  let w' := (on_message e m w).2 in
  active_orders w' !! S = Some failed ∧
  SNIPE_LIST w' = SNIPE_LIST w ∧
  dict_get S (SNIPE_LIST w') = Some a ∧
  config_file w' = config_file w ∧
  calls_for S w' = (calls_for S w + 1)%nat ∧
  ∀ evs, calls_for S (run_messages evs w') = calls_for S w'.
Proof.
  intros Ht Hp Hget Hact Hok w'.
  pose proof (on_message_fires e m w S sd a Ht Hp Hget Hact) as Hfired.
  pose proof (calls_for_fired _ _ _ _ _ S Hfired) as Hn.
  rewrite decide_True in Hn by done.
  destruct Hfired as (b & l & Hb & Ha & Hs & Hf & _).
  fold w' in Ha, Hs, Hf, Hn. rewrite Hb in Hok. simplify_eq.
  split_and!; try done.
  - by rewrite Ha, lookup_insert_eq.
  - by rewrite Hs.
  - intros evs. apply run_messages_claimed. rewrite Ha, lookup_insert_eq. eauto.
Qed.



(** C10. Handling a ticker event for [S] leaves every other symbol [T]
    as it was: same entry (or absence) in [SNIPE_LIST], same entry (or
    absence) in [active_orders], whether the event was ignored, the order
    went through or it failed. *)
Theorem other_symbols_untouched (e : env) (m : string) (w : world)
    (S : string) (sd : gmap string json) (T : string) :
  ticker_event m S sd → T ≠ S →
  dict_get T (SNIPE_LIST (on_message e m w).2) = dict_get T (SNIPE_LIST w) ∧
  active_orders (on_message e m w).2 !! T = active_orders w !! T.
Proof.
  intros Ht Hne.
  destruct (on_message_inv e m w)
    as [(-> & -> & _)|(S0 & sd0 & a & Ht0 & _ & _ & _ & Hf)]; [done|].
  destruct (ticker_event_functional _ _ _ _ _ Ht Ht0) as [<- <-].
  destruct Hf as (b & l & _ & -> & -> & _).
  split.
  - destruct b; [|done]. by apply dict_get_del_ne.
  - by rewrite lookup_insert_ne.
Qed.

(** *** The order gateway *)

Lemma new_effects_add l w : new_effects w (add_effects l w) = l.
Proof. unfold new_effects, add_effects. simpl. by rewrite drop_app_length. Qed.

Lemma py_in_obj_true k j v :
  py_in k j = Ok true → py_getitem j k = Ok v →
  ∃ m, j = JObj m ∧ is_Some (m !! k).
Proof. intros _ (m & -> & Hm)%py_getitem_Ok. eauto. Qed.

Ltac run_gateway :=
  unfold place_market_order, place_market_order_try, requests_post, secret_bytes;
  run_M.

(** C6. [place_market_order] always returns a [bool], never an
    exception.  It returns [True] exactly when the exchange's response
    to the signed request decodes to an object with an [orderId] entry;
    an error payload, a body that is not JSON, a network failure or
    timeout, or an exception before the request is sent: [False]. *)
Theorem place_market_order_success_iff (e : env) (S : string) (q : json)
    (w : world) :
  ∃ b, (place_market_order e S q w).1 = Ok b ∧
    (b = true ↔
     ∃ key query_string m,
       SECRET_KEY = Some key ∧
       urlencode [("symbol", JStr S); ("side", JStr "BUY"); ("type", JStr "MARKET");
                  ("quoteOrderQty", q); ("timestamp", JInt (time_ms e))]
         = Ok query_string ∧
       http_post e (order_request S q (time_ms e) key query_string)
         = HttpResponse (Ok (JObj m)) ∧
       is_Some (m !! "orderId")).
Proof.
  run_gateway. unfold order_params, order_request.
  change (String.append BASE_URL "/api/v3/order")
    with "https://api.mexc.com/api/v3/order".
  repeat case_match; simplify_eq/=;
    (eexists; split; [reflexivity|]); split; try done.
  all: try (intros (key & qs & m & Hkey & Hqs & Hresp & Hid); exfalso;
            simplify_eq/=;
            match goal with
            | H : http_post _ _ = _ |- _ =>
                tryif constr_eq H Hresp then fail
                else (rewrite H in Hresp)
            end; simplify_eq/=).
  all: try (match goal with
            | H : bool_decide _ = false |- _ =>
                apply bool_decide_eq_false in H; by destruct H
            | H : context [_ !! "orderId"] |- _ =>
                destruct Hid as [? Hid]; rewrite Hid in H; done
            end).
  all: try (intros _;
            match goal with
            | H1 : py_in _ ?j = Ok true, H2 : py_getitem ?j _ = Ok _ |- _ =>
                destruct (py_in_obj_true _ _ _ H1 H2) as (m & -> & Hm)
            end;
            eexists _, _, _; split_and!; [reflexivity|reflexivity|eassumption|done]).
Qed.

(** C8. [place_market_order] submits exactly one request whenever
    [SECRET_KEY] is set and the parameters url-encode, and none
    otherwise.  That request carries symbol, side=BUY, type=MARKET,
    quoteOrderQty, timestamp in this order, followed by [signature]: the
    HMAC-SHA256 hex digest, keyed with [SECRET_KEY], of the url-encoding
    of those five parameters alone.  It goes to the order endpoint with
    the API-key header and a timeout of 10 seconds. *)
Theorem order_request_is_signed (e : env) (S : string) (q : json) (w : world) :
  posts (new_effects w (place_market_order e S q w).2) =
    match SECRET_KEY,
          urlencode [("symbol", JStr S); ("side", JStr "BUY"); ("type", JStr "MARKET");
                     ("quoteOrderQty", q); ("timestamp", JInt (time_ms e))] with
    | Some key, Ok query_string =>
        [ {| url := "https://api.mexc.com/api/v3/order";
             params :=
               [("symbol", JStr S); ("side", JStr "BUY"); ("type", JStr "MARKET");
                ("quoteOrderQty", q); ("timestamp", JInt (time_ms e));
                ("signature", JStr (hmac_sha256_hex key query_string))];
             headers := [("X-MEXC-APIKEY", API_KEY)];
             timeout := 10 |} ]
    | _, _ => []
    end.
Proof.
  run_gateway. unfold order_params.
  repeat case_match; simplify_eq/=; rewrite ?add_effects_assoc, new_effects_add;
    simpl; try done; congruence.
Qed.

(** *** The feed session *)

Lemma log_targets_spec items w :
  log_targets items w =
    (Ok tt, add_effects ((λ kv, Log (LogTarget kv.1 kv.2)) <$> items) w).
Proof.
  revert w. induction items as [|[k v] items IH]; intros w; simpl.
  - by rewrite add_effects_nil.
  - run_M. rewrite IH, add_effects_assoc. done.
Qed.

Lemma sent_frames_logs l : forallb is_log l = true → sent_frames l = [].
Proof.
  induction l as [|x l IH]; simpl; [done|].
  intros [Hx Hl]%andb_prop. destruct x; simpl in *; try done. auto.
Qed.

Lemma sent_frames_app l1 l2 :
  sent_frames (l1 ++ l2) = (sent_frames l1 ++ sent_frames l2)%list.
Proof. apply omap_app. Qed.

Lemma forallb_is_log_targets (items : pydict) :
  forallb is_log ((λ kv, Log (LogTarget kv.1 kv.2)) <$> items) = true.
Proof. by induction items. Qed.

Lemma elem_of_dict_keys k d : k ∈ dict_keys d ↔ is_Some (dict_get k d).
Proof.
  unfold dict_keys. induction d as [|[k' v] d IH]; simpl.
  - split; [by intros ?%elem_of_nil | by intros [? ?]].
  - rewrite elem_of_cons, IH. destruct (decide (k' = k)) as [->|Hne].
    + split; eauto.
    + split; [intros [?|?]; [congruence|done] | auto].
Qed.

Lemma new_effects_app l w w' :
  effects w' = (effects w ++ l)%list → new_effects w w' = l.
Proof. unfold new_effects. intros ->. by rewrite drop_app_length. Qed.

Lemma on_open_spec o w :
  ∃ l, (on_open o w).2 = add_effects l (set_ws_connected true w) ∧
    sent_frames l =
      match SNIPE_LIST w with
      | [] => []
      | _ :: _ =>
          [json_dumps (subscribe_message (stream_name <$> dict_keys (SNIPE_LIST w)))]
      end ∧
    (o = Ok tt ∨ SNIPE_LIST w = [] → (on_open o w).1 = Ok tt).
Proof.
  unfold on_open, ws_send. run_M. simpl.
  destruct (SNIPE_LIST w) as [|[k v] d] eqn:E; simpl.
  - rewrite log_targets_spec; simpl. rewrite E, ?add_effects_assoc; simpl.
    eexists; split; [reflexivity|]. done.
  - destruct o as [[]|ex]; simpl.
    + rewrite log_targets_spec; simpl. rewrite E, ?add_effects_assoc; simpl.
      eexists; split; [reflexivity|]. split; [|done].
      simpl. f_equal.
      rewrite sent_frames_app, sent_frames_logs; [done|].
      apply (forallb_is_log_targets d).
    + rewrite ?add_effects_assoc; simpl.
      eexists; split; [reflexivity|]. split; [done|].
      by intros [?|?].
Qed.

(** C9. [on_open] marks the connection as up and hands [ws.send]
    exactly one frame, the SUBSCRIPTION request listing
    [lower(symbol)@24hrTicker] for each key of [SNIPE_LIST] (in the
    mapping's order) and nothing else; with an empty [SNIPE_LIST] it
    sends no frame at all, and the connection stays up.  It returns
    normally unless [ws.send] itself raises. *)
Theorem on_open_subscribes_once (send_outcome : result unit) (w : world) :
  let w' := (on_open send_outcome w).2 in
  let streams := stream_name <$> dict_keys (SNIPE_LIST w) in
  ws_connected w' = true ∧
  SNIPE_LIST w' = SNIPE_LIST w ∧ active_orders w' = active_orders w ∧
  sent_frames (new_effects w w') =
    match SNIPE_LIST w with
    | [] => []
    | _ :: _ =>
        [json_dumps (JObj (<["method" := JStr "SUBSCRIPTION"]>
                           (<["params" := JArr (JStr <$> streams)]> ∅)))]
    end ∧
  length streams = length (SNIPE_LIST w) ∧
  (∀ x, x ∈ streams ↔
        ∃ symbol, is_Some (dict_get symbol (SNIPE_LIST w)) ∧
                  x = str_lower symbol +:+ "@24hrTicker") ∧
  (send_outcome = Ok tt ∨ SNIPE_LIST w = [] → (on_open send_outcome w).1 = Ok tt).
Proof.
  intros w' streams. subst w'.
  destruct (on_open_spec send_outcome w) as (l & -> & Hl & Hret). simpl.
  split_and!; try done.
  - rewrite (new_effects_app l) by done. exact Hl.
  - unfold streams, dict_keys. by rewrite !length_fmap.
  - intros x. unfold streams. rewrite list_elem_of_fmap. unfold stream_name.
    split; intros (s & ? & ?); exists s; split; try done;
      by apply elem_of_dict_keys.
Qed.

Lemma run_forever_turn_spec s w :
  run_forever_turn s w = (Ok tt, add_effects (turn_effects s) w).
Proof.
  unfold run_forever_turn, ws_run_forever. run_M.
  destruct s; simpl; by rewrite !add_effects_assoc.
Qed.

(** The loop goes on whatever way its sessions end (no exception leaves
    it), one connection attempt per turn. *)
Lemma run_forever_spec sessions w :
  run_forever sessions w =
    (Ok tt, add_effects (concat (turn_effects <$> sessions)) w).
Proof.
  revert w. induction sessions as [|s sessions IH]; intros w; simpl.
  - by rewrite add_effects_nil.
  - run_M. rewrite run_forever_turn_spec, IH, add_effects_assoc. done.
Qed.

(** C2, as the code has it.  When [ws.run_forever()] returns (the
    connection was closed, or failed and the library reported it through
    [on_error]/[on_close]), the loop starts the next connection at once:
    over any number of such sessions it performs nothing but
    [log]/[ws.run_forever()] pairs, and never a [time.sleep(10)].  Only
    a session that raises is followed by the 10-second wait. *)
Theorem reconnect_after_return_has_no_backoff (n : nat) (w : world) :
  new_effects w (run_forever (replicate n Returned) w).2 =
    concat (replicate n [Log LogStarting; WsRunForever]) ∧
  (Sleep 10 ∉ new_effects w (run_forever (replicate n Returned) w).2) ∧
  (∀ ex, new_effects w (run_forever [Raised ex; Returned] w).2 =
    [Log LogStarting; WsRunForever; Log (LogCrashed ex); Sleep 10;
     Log LogStarting; WsRunForever]).
Proof.
  assert (E : new_effects w (run_forever (replicate n Returned) w).2 =
              concat (replicate n [Log LogStarting; WsRunForever])).
  { rewrite run_forever_spec. cbn [snd]. by rewrite new_effects_add, fmap_replicate. }
  split_and!.
  - exact E.
  - rewrite E. clear E. induction n as [|n IH]; simpl.
    + apply not_elem_of_nil.
    + intros [?|[?|?]%elem_of_cons]%elem_of_cons; done.
  - intros ex. rewrite run_forever_spec. cbn [snd]. by rewrite new_effects_add.
Qed.

(** *** Which prices are not positive *)

Lemma binary_round_aux_sign prec emax sx mx ex lx :
  let r := binary_round_aux prec emax sx mx ex lx in
  r = S754_zero sx ∨ r = S754_infinity sx ∨ r = S754_nan ∨
  ∃ m e, r = S754_finite sx m e.
Proof.
  unfold binary_round_aux. simpl.
  destruct (shr_fexp prec emax mx ex lx) as [mrs' e'].
  destruct (shr_fexp prec emax _ e' loc_Exact) as [mrs'' e''].
  destruct (shr_m mrs''); [| destruct (_ <=? _)%Z |]; eauto 7.
Qed.

Lemma float_of_int_not_positive z :
  (z ≤ 0)%Z →
  float_of_int z = Raise OverflowError ∨ float_of_int z = Ok S754_nan ∨
  ∃ p, float_of_int z = Ok p ∧ float_le0 p = true.
Proof.
  intros Hz. unfold float_of_int, binary_normalize.
  destruct z as [|z|z]; [by right; right; eexists| lia |].
  unfold binary_round.
  destruct (shl_align _ _ _) as [mz ez].
  destruct (binary_round_aux_sign prec64 emax64 true (Z.pos mz) ez loc_Exact)
    as [->|[->|[->|(m & e & ->)]]]; eauto.
Qed.

(** Zero and negative ints, [false], [null], lists and objects, and
    strings [float] rejects are all prices that are not positive. *)
Lemma price_not_positive_examples :
  (∀ z, (z ≤ 0)%Z → price_not_positive (Some (JInt z))) ∧
  price_not_positive (Some (JBool false)) ∧
  price_not_positive (Some JNull) ∧
  (∀ l, price_not_positive (Some (JArr l))) ∧
  (∀ m, price_not_positive (Some (JObj m))) ∧
  (∀ s ex, float_of_str s = Raise ex → price_not_positive (Some (JStr s))) ∧
  (∀ s p, float_of_str s = Ok p → float_le0 p = true →
          price_not_positive (Some (JStr s))) ∧
  (∀ p, float_le0 p = true → price_not_positive (Some (JFloat p))).
Proof.
  split_and!.
  - intros z Hz.
    destruct (float_of_int_not_positive z Hz) as [H|[H|(p & H & Hp)]].
    + by eapply price_not_numeric.
    + by eapply price_nan.
    + by eapply price_zero_or_negative.
  - by eapply price_zero_or_negative.
  - by eapply price_not_numeric.
  - intros l. by eapply price_not_numeric.
  - intros m. by eapply price_not_numeric.
  - intros s ex H. by eapply price_not_numeric.
  - intros s p H Hp. by eapply price_zero_or_negative.
  - intros p Hp. by eapply price_zero_or_negative.
Qed.
End Properties.

(* ------------------------------------------------------------------ *)
(** ** The scenarios, run *)

Lemma tick_pos_event : ticker_event (lib := demo_lib) tick_pos "ABCUSDT" abc_pos_data.
Proof.
  exists (ticker_frame "spot@public.24hrTicker:ABCUSDT" "ABCUSDT" [("c", JStr "0.05")]),
    abc_stream.
  split_and!; vm_compute; reflexivity.
Defined.


Lemma abc_pos_price : price_positive (lib := demo_lib) abc_pos_data.
Proof. exists (JStr "0.05"), f_0_05. split_and!; vm_compute; reflexivity. Defined.

Lemma abc_zero_price : price_not_positive (lib := demo_lib) (abc_zero_data !! "c").
Proof.
  apply (price_zero_or_negative _ (JStr "0.0") float_zero); vm_compute; reflexivity.
Defined.

Lemma at_most_one_order_per_symbol_witness :
  (calls_for "ABCUSDT" (run_messages (lib := demo_lib) burst abc_world) ≤ 1)%nat ∧
  calls_for "ABCUSDT" (run_messages (lib := demo_lib) burst abc_world) = 1%nat.
Proof.
  destruct (at_most_one_order_per_symbol (lib := demo_lib) burst abc_world "ABCUSDT"
              eq_refl eq_refl) as [Hle Hone].
  split; [exact Hle|]. apply Hone.
  - discriminate.
  - exists (JFloat f_5). reflexivity.
  - repeat apply Forall_cons_2; try apply Forall_nil_2;
      exists abc_pos_data; (split; [apply tick_pos_event | apply abc_pos_price]).
Defined.



Lemma success_completes_and_unwatches_witness :
  let w' := (on_message (lib := demo_lib) good_env tick_pos abc_world).2 in
  active_orders w' !! "ABCUSDT" = Some completed ∧
  dict_get "ABCUSDT" (SNIPE_LIST w') = None ∧
  config_file w' = FileHolds [] ∧
  calls_for "ABCUSDT" (run_messages (lib := demo_lib) burst w') = calls_for "ABCUSDT" w'.
Proof.
  destruct (success_completes_and_unwatches (lib := demo_lib) good_env tick_pos
              abc_world "ABCUSDT" abc_pos_data (JFloat f_5)
              tick_pos_event abc_pos_price eq_refl eq_refl eq_refl)
    as (Hc & Hg & _ & Hf & Hafter).
  split; [exact Hc|]. split; [exact Hg|]. split; [|apply (Hafter burst)].
  destruct (Hf eq_refl) as [Hfile _]. exact Hfile.
Defined.

Lemma failure_is_terminal_witness :
  let w' := (on_message (lib := demo_lib) reject_env tick_pos abc_world).2 in
  active_orders w' !! "ABCUSDT" = Some failed ∧
  SNIPE_LIST w' = SNIPE_LIST abc_world ∧
  config_file w' = config_file abc_world ∧
  calls_for "ABCUSDT" (run_messages (lib := demo_lib) burst w') = calls_for "ABCUSDT" w'.
Proof.
  destruct (failure_is_terminal (lib := demo_lib) reject_env tick_pos
              abc_world "ABCUSDT" abc_pos_data (JFloat f_5)
              tick_pos_event abc_pos_price eq_refl eq_refl eq_refl)
    as (Hc & Hs & _ & Hf & _ & Hafter).
  split; [exact Hc|]. split; [exact Hs|]. split; [exact Hf|apply (Hafter burst)].
Defined.


Lemma place_market_order_success_iff_witness :
  (place_market_order (lib := demo_lib) good_env "ABCUSDT" (JFloat f_5) abc_world).1
    = Ok true ∧
  (place_market_order (lib := demo_lib) reject_env "ABCUSDT" (JFloat f_5) abc_world).1
    = Ok false.
Proof.
  split.
  - destruct (place_market_order_success_iff (lib := demo_lib) good_env "ABCUSDT"
                (JFloat f_5) abc_world) as (b & Hb & Hiff).
    rewrite Hb. f_equal. apply Hiff.
    exists "demo-secret",
      "symbol=ABCUSDT&side=BUY&type=MARKET&quoteOrderQty=5.0&timestamp=1700000000000",
      (<["orderId" := JStr "123"]> ∅).
    split; [reflexivity|]. split; [vm_compute; reflexivity|].
    split; [reflexivity|]. exists (JStr "123"). vm_compute. reflexivity.
  - destruct (place_market_order_success_iff (lib := demo_lib) reject_env "ABCUSDT"
                (JFloat f_5) abc_world) as (b & Hb & Hiff).
    rewrite Hb. f_equal. destruct b; [|reflexivity].
    destruct (proj1 Hiff eq_refl) as (key & qs & m & _ & _ & Hresp & [v Hv]).
    injection Hresp as <-. vm_compute in Hv. discriminate Hv.
Defined.

Lemma order_request_is_signed_witness :
  posts (new_effects abc_world
           (place_market_order (lib := demo_lib) good_env "ABCUSDT" (JFloat f_5)
              abc_world).2) = [abc_request] ∧
  posts (new_effects abc_world
           (place_market_order (lib := keyless_lib) good_env "ABCUSDT" (JFloat f_5)
              abc_world).2) = [].
Proof.
  split.
  - rewrite (order_request_is_signed (lib := demo_lib) good_env "ABCUSDT" (JFloat f_5)
               abc_world).
    vm_compute. reflexivity.
  - rewrite (order_request_is_signed (lib := keyless_lib) good_env "ABCUSDT"
               (JFloat f_5) abc_world).
    vm_compute. reflexivity.
Defined.

Lemma other_symbols_untouched_witness :
  dict_get "XYZUSDT"
    (SNIPE_LIST (on_message (lib := demo_lib) good_env tick_pos two_world).2)
    = Some (JInt 3) ∧
  active_orders (on_message (lib := demo_lib) good_env tick_pos two_world).2
    !! "XYZUSDT" = None.
Proof.
  apply (other_symbols_untouched (lib := demo_lib) good_env tick_pos two_world
           "ABCUSDT" abc_pos_data "XYZUSDT" tick_pos_event).
  discriminate.
Defined.

Lemma on_open_subscribes_once_witness :
  sent_frames (new_effects two_world (on_open (lib := demo_lib) (Ok tt) two_world).2)
    = ["{method:SUBSCRIPTION,params:[abcusdt@24hrTicker,xyzusdt@24hrTicker]}"] ∧
  (on_open (lib := demo_lib) (Ok tt) two_world).1 = Ok tt.
Proof.
  destruct (on_open_subscribes_once (lib := demo_lib) (Ok tt) two_world)
    as (_ & _ & _ & Hsent & _ & _ & Hret).
  split; [exact Hsent|]. apply Hret. left. reflexivity.
Defined.




(** C4 as stated fails: the order goes through, the file cannot be
    opened for writing, and the symbol is still in the persisted list. *)
Lemma persisted_list_stale_when_write_fails :
  ¬ (∀ (lib : PyLib) (e : env) (m : string) (w : world) (S : string)
       (sd : gmap string json) (a : json),
       ticker_event m S sd → price_positive sd →
       dict_get S (SNIPE_LIST w) = Some a → active_orders w !! S = None →
       (place_market_order e S a w).1 = Ok true →
       persisted_mem S (config_file (on_message e m w).2) = false).
Proof.
  intros H.
  specialize (H demo_lib readonly_env tick_pos abc_world "ABCUSDT" abc_pos_data
                (JFloat f_5) tick_pos_event abc_pos_price eq_refl eq_refl eq_refl).
  vm_compute in H. discriminate H.
Qed.

(** The first scenario of the spec: watch list {ABCUSDT: 5.0}; a tick at
    price 0.0 does nothing; a tick at 0.05, the exchange answering with
    order id 123, places one order for (ABCUSDT, 5.0) and takes ABCUSDT
    off the list and out of the file. *)
Example scenario_zero_then_positive :
  let w1 := (on_message (lib := demo_lib) good_env tick_0 abc_world).2 in
  let w2 := (on_message (lib := demo_lib) good_env tick_pos w1).2 in
  w1 = abc_world ∧
  gateway_calls w2 = [CallGateway "ABCUSDT" (JFloat f_5)] ∧
  List.filter (λ x, match x with HttpPost _ => true | _ => false end) (effects w2)
    = [HttpPost abc_request] ∧
  SNIPE_LIST w2 = [] ∧ config_file w2 = FileHolds [] ∧
  active_orders w2 !! "ABCUSDT" = Some completed.
Proof. vm_compute. repeat split. Qed.

(** The third scenario: the exchange rejects the order; the symbol stays
    on the list and in the file, and later ticks place no second order. *)
Example scenario_rejected_then_ticks :
  let w1 := (on_message (lib := demo_lib) reject_env tick_pos abc_world).2 in
  let w2 := run_messages (lib := demo_lib) burst w1 in
  active_orders w1 !! "ABCUSDT" = Some failed ∧
  SNIPE_LIST w2 = SNIPE_LIST abc_world ∧
  config_file w2 = config_file abc_world ∧
  gateway_calls w2 = [CallGateway "ABCUSDT" (JFloat f_5)].
Proof. vm_compute. repeat split. Qed.

(** Python reads a JSON [true] as the int 1: a tick whose price is [true]
    is a tick with a positive price.  A [stream] entry that is a list
    containing [24hrTicker] passes the [in] test like a string does. *)
Example duck_typed_frames :
  gateway_calls (on_message (lib := demo_lib) good_env tick_true abc_world).2
    = [CallGateway "ABCUSDT" (JFloat f_5)] ∧
  gateway_calls (on_message (lib := demo_lib) good_env tick_list_stream abc_world).2
    = [CallGateway "ABCUSDT" (JFloat f_5)].
Proof. vm_compute. repeat split. Qed.

(** An int too large for binary64 makes [float] raise. *)
Example float_of_int_overflow :
  float_of_int (10 ^ 400) = Raise OverflowError ∧
  float_of_int (2 ^ 1024 - 2 ^ 970) = Raise OverflowError ∧
  float_of_int (2 ^ 1024 - 2 ^ 970 - 1) = Ok (S754_finite false 9007199254740991 971) ∧
  float_of_int 1 = Ok float_one ∧ float_of_int 5 = Ok f_5.
Proof. vm_compute. repeat split. Qed.

(** The network is down: the order call still returns, with [False], and
    the symbol is marked ['failed'].  A frame that is no ticker event
    (the feed's PONG) changes nothing. *)
Example scenario_network_down_and_pong :
  let down := env_of unreachable WriteOk in
  (place_market_order (lib := demo_lib) down "ABCUSDT" (JFloat f_5) abc_world).1
    = Ok false ∧
  active_orders (on_message (lib := demo_lib) down tick_pos abc_world).2 !! "ABCUSDT"
    = Some failed ∧
  (on_message (lib := demo_lib) good_env "{id:0,code:0,msg:PONG}" abc_world).2
    = abc_world.
Proof. vm_compute. repeat split. Qed.

(* ------------------------------------------------------------------ *)
(** ** Further properties of the gateway, the handler and the loop *)

Lemma posts_app l1 l2 : posts (l1 ++ l2) = (posts l1 ++ posts l2)%list.
Proof. apply omap_app. Qed.

Lemma calls_app l1 l2 : calls (l1 ++ l2) = (calls l1 ++ calls l2)%list.
Proof. apply omap_app. Qed.

Lemma posts_logs l : forallb is_log l = true → posts l = [].
Proof.
  induction l as [|x l IH]; simpl; [done|].
  intros [Hx Hl]%andb_prop. destruct x; simpl in *; try done. auto.
Qed.

Lemma calls_logs l : forallb is_log l = true → calls l = [].
Proof.
  induction l as [|x l IH]; simpl; [done|].
  intros [Hx Hl]%andb_prop. destruct x; simpl in *; try done. auto.
Qed.

Ltac eval_gateway :=
  unfold place_market_order, place_market_order_try, requests_post, secret_bytes;
  run_M.

Section Further.
Context {lib : PyLib}.

Lemma place_market_order_effects e S a w :
  place_market_order e S a w =
    ((place_market_order e S a (start_world [])).1,
     add_effects (order_effects e S a) w).
Proof.
  unfold order_effects. eval_gateway.
  repeat case_match; simplify_eq/=; rewrite ?add_effects_assoc; simpl;
    try reflexivity; congruence.
Qed.

(** One call: the marker, log lines, and at most one request, which is
    for the symbol and the amount of the call. *)
Lemma order_effects_shape e S a :
  calls (order_effects e S a) = [(S, a)] ∧
  (posts (order_effects e S a) = [] ∨
   ∃ r, posts (order_effects e S a) = [r] ∧
        dict_get "symbol" (params r) = Some (JStr S) ∧
        dict_get "quoteOrderQty" (params r) = Some a).
Proof.
  unfold order_effects. eval_gateway. unfold order_params.
  repeat case_match; simplify_eq/=; (split; [done|]); eauto.
Qed.

(** X1. A [place_market_order] call leaves the globals and the file
    alone; all it does is log, and post at most one request: it never
    retries. *)
Theorem place_market_order_only_posts_once (e : env) (S : string) (a : json)
    (w : world) :
  let w' := (place_market_order e S a w).2 in
  SNIPE_LIST w' = SNIPE_LIST w ∧ active_orders w' = active_orders w ∧
  ws_connected w' = ws_connected w ∧ config_file w' = config_file w ∧
  calls (new_effects w w') = [(S, a)] ∧
  (length (posts (new_effects w w')) ≤ 1)%nat.
Proof.
  intros w'. subst w'. rewrite place_market_order_effects. cbn [snd].
  rewrite new_effects_add.
  destruct (order_effects_shape e S a) as [Hc [Hp|(r & Hp & _)]];
    rewrite Hp; simpl; split_and!; try done; lia.
Qed.

Lemma place_market_order_posts e S a w :
  match urlencode (order_params S a (time_ms e)), SECRET_KEY with
  | Ok _, Some _ =>
      length (posts (new_effects w (place_market_order e S a w).2)) = 1%nat
  | _, _ =>
      posts (new_effects w (place_market_order e S a w).2) = [] ∧
      (place_market_order e S a w).1 = Ok false
  end.
Proof.
  rewrite place_market_order_effects. cbn [snd fst].
  rewrite new_effects_add. unfold order_effects. eval_gateway.
  repeat case_match; simplify_eq/=; try done; congruence.
Qed.

(** X2. A request goes out exactly when the parameters could be
    url-encoded and [SECRET_KEY] is set; otherwise nothing is posted and
    the call returns [False]. *)
Theorem request_posted_iff_signable (e : env) (S : string) (a : json) (w : world) :
  let w' := (place_market_order e S a w).2 in
  match urlencode (order_params S a (time_ms e)), SECRET_KEY with
  | Ok _, Some _ => length (posts (new_effects w w')) = 1%nat
  | _, _ =>
      posts (new_effects w w') = [] ∧ (place_market_order e S a w).1 = Ok false
  end.
Proof. apply place_market_order_posts. Qed.

Lemma snipe_effects e sd S a w :
  price_positive sd → dict_get S (SNIPE_LIST w) = Some a →
  ∃ pre post,
    effects (snipe e (JObj sd) S w).2 =
      (effects w ++ pre ++ order_effects e S a ++ post)%list ∧
    forallb is_log pre = true ∧ forallb is_log post = true.
Proof.
  intros (c & p & Hc & Hp & Hgt) Hget. unfold snipe. run_M. simpl.
  rewrite Hc. simpl. rewrite Hp, Hgt.
  unfold active_setitem, snipe_getitem. run_M. simpl. rewrite Hget.
  rewrite place_market_order_effects.
  destruct ((place_market_order e S a (start_world [])).1) as [[]|ex] eqn:Hr.
  - unfold snipe_delitem, save_snipe_list, write_config. run_M. simpl.
    assert (dict_mem S (SNIPE_LIST w) = true) as -> by (apply dict_mem_get; eauto).
    destruct (file_write e); simpl;
      (eexists [_; _; _], _; split;
       [rewrite <- !app_assoc; simpl; reflexivity | done]).
  - simpl. eexists [_; _; _], _; split;
       [rewrite <- !app_assoc; simpl; reflexivity | done].
  - simpl. eexists [_; _; _], []; split;
       [rewrite <- !app_assoc; simpl; by rewrite app_nil_r | done].
Qed.

(** What a callback puts out: log lines only, or log lines around the
    one gateway call for the watched, unclaimed symbol of the event. *)
Lemma on_message_effects e m w :
  (∃ lines, effects (on_message e m w).2 = (effects w ++ lines)%list ∧
            forallb is_log lines = true) ∨
  ∃ S a pre post,
    dict_get S (SNIPE_LIST w) = Some a ∧ active_orders w !! S = None ∧
    effects (on_message e m w).2 =
      (effects w ++ pre ++ order_effects e S a ++ post)%list ∧
    forallb is_log pre = true ∧ forallb is_log post = true.
Proof.
  destruct (on_message_inv e m w)
    as [(_ & _ & _ & _ & Hl)|(S & sd & a & Ht & Hp & Hget & Hact & _)];
    [by left|].
  right. exists S, a.
  rewrite (on_message_ticker _ _ _ _ _ Ht). unfold try_except.
  assert (dict_mem S (SNIPE_LIST w) = true) as -> by (apply dict_mem_get; eauto).
  rewrite bool_decide_eq_false_2 by (rewrite Hact; by intros [? ?]). simpl.
  destruct (snipe_effects e sd S a w Hp Hget) as (pre & post & He & Hpre & Hpost).
  destruct (snipe e (JObj sd) S w) as [[[]|ex] w1]; simpl in *.
  - by exists pre, post.
  - exists pre, (post ++ [Log (LogMessageError ex)])%list. split_and!; try done.
    + rewrite He, <- !app_assoc. done.
    + rewrite forallb_app, Hpost. done.
Qed.

Lemma calls_for_calls S l :
  length (List.filter (is_call_for S) l) =
  length (List.filter (λ c : string * json, bool_decide (c.1 = S)) (calls l)).
Proof.
  induction l as [|x l IH]; simpl; [done|].
  destruct x; simpl; try done.
  destruct (bool_decide (symbol = S)); simpl; by rewrite IH.
Qed.

Lemma on_message_counts e m w S :
  let w' := (on_message e m w).2 in
  ∃ dc dp : nat,
    calls_for S w' = (calls_for S w + dc)%nat ∧
    posts_for S w' = (posts_for S w + dp)%nat ∧ (dp ≤ dc)%nat.
Proof.
  intros w'. subst w'. unfold calls_for, posts_for.
  destruct (on_message_effects e m w)
    as [(l & -> & Hl)|(S0 & a & pre & post & _ & _ & -> & Hpre & Hpost)].
  - exists 0%nat, 0%nat.
    rewrite List.filter_app, posts_app, (filter_logs_call_for _ _ Hl),
      (posts_logs _ Hl), !app_nil_r. lia.
  - rewrite !List.filter_app, !posts_app, !List.filter_app, !length_app.
    rewrite (filter_logs_call_for _ _ Hpre), (filter_logs_call_for _ _ Hpost),
      (posts_logs _ Hpre), (posts_logs _ Hpost). simpl.
    rewrite (calls_for_calls S (order_effects e S0 a)).
    destruct (order_effects_shape e S0 a) as [-> [->|(r & -> & Hs & _)]]; simpl.
    + eexists _, 0%nat. split_and!; [reflexivity|lia|lia].
    + unfold is_post_for. rewrite Hs.
      destruct (bool_decide (S0 = S)); simpl;
        (eexists _, _; split_and!; [reflexivity|reflexivity|lia]).
Qed.

Lemma run_messages_posts_le_calls evs w S :
  (posts_for S w ≤ calls_for S w)%nat →
  (posts_for S (run_messages evs w) ≤ calls_for S (run_messages evs w))%nat.
Proof.
  revert w. induction evs as [|[e m] evs IH]; intros w Hle; simpl; [done|].
  apply IH. destruct (on_message_counts e m w S) as (dc & dp & -> & -> & ?). lia.
Qed.

(** X3. From a start with nothing sent yet, over any frames the
    exchange is sent at most one order request per symbol,
    and never a request without a [place_market_order] call for that
    symbol. *)
Theorem at_most_one_request_per_symbol (evs : list (env * string)) (w : world)
    (S : string) :
  effects w = [] →
  (posts_for S (run_messages evs w) ≤ calls_for S (run_messages evs w))%nat ∧
  (posts_for S (run_messages evs w) ≤ 1)%nat.
Proof.
  intros Heff.
  assert (Hle : (posts_for S (run_messages evs w)
                 ≤ calls_for S (run_messages evs w))%nat).
  { apply run_messages_posts_le_calls. unfold posts_for, calls_for.
    rewrite Heff. simpl. lia. }
  split; [exact Hle|].
  assert (Hinv : claim_inv w).
  { apply start_claim_inv. unfold gateway_calls. by rewrite Heff. }
  destruct (run_messages_claim_inv evs w Hinv S) as [H0|[H1 _]]; lia.
Qed.

Lemma dict_get_del_Some k k' d a :
  dict_get k' (dict_del k d) = Some a → dict_get k' d = Some a.
Proof.
  destruct (decide (k = k')) as [->|Hne].
  - by rewrite dict_get_del.
  - by rewrite dict_get_del_ne.
Qed.

Lemma on_message_shrinks e m w T a :
  dict_get T (SNIPE_LIST (on_message e m w).2) = Some a →
  dict_get T (SNIPE_LIST w) = Some a.
Proof.
  destruct (on_message_inv e m w)
    as [(-> & _)|(S & sd & a0 & _ & _ & _ & _ & Hf)]; [done|].
  destruct Hf as (b & l & _ & _ & -> & _).
  destruct b; [apply dict_get_del_Some|done].
Qed.

Lemma run_messages_calls_amounts evs w :
  ∃ l, effects (run_messages evs w) = (effects w ++ l)%list ∧
       ∀ S a, (S, a) ∈ calls l → dict_get S (SNIPE_LIST w) = Some a.
Proof.
  revert w. induction evs as [|[e m] evs IH]; intros w; simpl.
  - exists []. rewrite app_nil_r. split; [done|]. intros S a []%elem_of_nil.
  - destruct (IH (on_message e m w).2) as (l & -> & Hl).
    destruct (on_message_effects e m w)
      as [(l0 & -> & Hl0)|(S0 & a0 & pre & post & Hget & _ & -> & Hpre & Hpost)].
    + exists (l0 ++ l)%list. rewrite <- app_assoc. split; [done|].
      intros S a. rewrite calls_app, (calls_logs _ Hl0). simpl. intros Hin.
      eapply on_message_shrinks, Hl, Hin.
    + exists ((pre ++ order_effects e S0 a0 ++ post) ++ l)%list.
      rewrite <- !app_assoc. split; [done|].
      intros S a. rewrite !calls_app, (calls_logs _ Hpre), (calls_logs _ Hpost).
      destruct (order_effects_shape e S0 a0) as [-> _]. simpl.
      intros [?|Hin]%elem_of_cons; [by simplify_eq|].
      eapply on_message_shrinks, Hl, Hin.
Qed.

(** X4. Every order placed during a run is for a symbol that was on the
    watch list when the run began, and for exactly the amount the list
    gave it then. *)
Theorem orders_use_configured_spend (evs : list (env * string)) (w : world)
    (S : string) (a : json) :
  (S, a) ∈ calls (new_effects w (run_messages evs w)) →
  dict_get S (SNIPE_LIST w) = Some a.
Proof.
  destruct (run_messages_calls_amounts evs w) as (l & E & Hl).
  rewrite (new_effects_app l) by done. apply Hl.
Qed.

(** The watch list is the one of [w0] without the completed symbols. *)
Lemma on_message_watch_list e m w0 w :
  (∀ T, dict_get T (SNIPE_LIST w) =
        match active_orders w !! T with
        | Some completed => None
        | _ => dict_get T (SNIPE_LIST w0)
        end) →
  ∀ T, dict_get T (SNIPE_LIST (on_message e m w).2) =
       match active_orders (on_message e m w).2 !! T with
       | Some completed => None
       | _ => dict_get T (SNIPE_LIST w0)
       end.
Proof.
  intros Hw T.
  destruct (on_message_inv e m w)
    as [(-> & -> & _)|(S & sd & a & _ & _ & _ & Hact & Hf)]; [apply Hw|].
  destruct Hf as (b & l & _ & -> & -> & _).
  destruct (decide (S = T)) as [->|Hne].
  - rewrite lookup_insert_eq. specialize (Hw T). rewrite Hact in Hw.
    destruct b; [apply dict_get_del|exact Hw].
  - rewrite lookup_insert_ne by done.
    destruct b; [rewrite dict_get_del_ne by done|]; apply Hw.
Qed.

Lemma run_messages_watch_list evs w0 w :
  (∀ T, dict_get T (SNIPE_LIST w) =
        match active_orders w !! T with
        | Some completed => None
        | _ => dict_get T (SNIPE_LIST w0)
        end) →
  ∀ T, dict_get T (SNIPE_LIST (run_messages evs w)) =
       match active_orders (run_messages evs w) !! T with
       | Some completed => None
       | _ => dict_get T (SNIPE_LIST w0)
       end.
Proof.
  revert w. induction evs as [|[e m] evs IH]; intros w Hw; simpl; [done|].
  by apply IH, on_message_watch_list.
Qed.

(** X5. From a start with nothing claimed, after any frames the watch
    list is the starting one minus exactly the symbols marked
    ['completed']: no entry is added, none changes its amount, and a
    failed symbol stays on the list. *)
Theorem watch_list_is_start_minus_completed (evs : list (env * string))
    (w : world) (T : string) :
  active_orders w = ∅ →
  dict_get T (SNIPE_LIST (run_messages evs w)) =
    match active_orders (run_messages evs w) !! T with
    | Some completed => None
    | _ => dict_get T (SNIPE_LIST w)
    end.
Proof.
  intros Hact. apply run_messages_watch_list.
  intros T'. by rewrite Hact, lookup_empty.
Qed.

Lemma on_message_status e m w T st :
  active_orders w !! T = Some st → active_orders (on_message e m w).2 !! T = Some st.
Proof.
  intros Hst.
  destruct (on_message_inv e m w)
    as [(_ & -> & _)|(S & sd & a & _ & _ & _ & Hact & Hf)]; [done|].
  destruct Hf as (b & l & _ & -> & _).
  rewrite lookup_insert_ne; [done|]. intros ->. congruence.
Qed.

(** X6. A status, once recorded for a symbol, is never changed or
    removed by any later frame: ['completed'] and ['failed'] are final. *)
Theorem status_is_final (evs : list (env * string)) (w : world) (T : string)
    (st : order_status) :
  active_orders w !! T = Some st →
  active_orders (run_messages evs w) !! T = Some st.
Proof.
  revert w. induction evs as [|[e m] evs IH]; intros w Hst; simpl; [done|].
  by apply IH, on_message_status.
Qed.

Lemma on_message_statuses e m w0 w :
  (∀ T a, dict_get T (SNIPE_LIST w) = Some a → dict_get T (SNIPE_LIST w0) = Some a) →
  (∀ T st, active_orders w !! T = Some st →
           st ≠ executing ∧ is_Some (dict_get T (SNIPE_LIST w0))) →
  (∀ T a, dict_get T (SNIPE_LIST (on_message e m w).2) = Some a →
          dict_get T (SNIPE_LIST w0) = Some a) ∧
  (∀ T st, active_orders (on_message e m w).2 !! T = Some st →
           st ≠ executing ∧ is_Some (dict_get T (SNIPE_LIST w0))).
Proof.
  intros Hs Hk. split.
  - intros T a H. by eapply Hs, on_message_shrinks.
  - intros T st.
    destruct (on_message_inv e m w)
      as [(_ & -> & _)|(S & sd & a & _ & _ & Hget & _ & Hf)]; [apply Hk|].
    destruct Hf as (b & l & _ & -> & _).
    destruct (decide (S = T)) as [->|Hne].
    + rewrite lookup_insert_eq. intros [= <-]. split; [by destruct b|].
      exists a. by apply Hs.
    + rewrite lookup_insert_ne by done. apply Hk.
Qed.

Lemma run_messages_statuses evs w0 w :
  (∀ T a, dict_get T (SNIPE_LIST w) = Some a → dict_get T (SNIPE_LIST w0) = Some a) →
  (∀ T st, active_orders w !! T = Some st →
           st ≠ executing ∧ is_Some (dict_get T (SNIPE_LIST w0))) →
  ∀ T st, active_orders (run_messages evs w) !! T = Some st →
          st ≠ executing ∧ is_Some (dict_get T (SNIPE_LIST w0)).
Proof.
  revert w. induction evs as [|[e m] evs IH]; intros w Hs Hk; simpl; [done|].
  destruct (on_message_statuses e m w0 w Hs Hk) as [Hs' Hk']. by apply IH.
Qed.

(** X7. From a start with nothing claimed, a symbol only ever gets a
    status if it was on the watch list at the start, and between
    callbacks that status is never ['executing']: it is ['completed'] or
    ['failed']. *)
Theorem statuses_are_outcomes_of_watched (evs : list (env * string)) (w : world)
    (T : string) (st : order_status) :
  active_orders w = ∅ →
  active_orders (run_messages evs w) !! T = Some st →
  (st = completed ∨ st = failed) ∧ is_Some (dict_get T (SNIPE_LIST w)).
Proof.
  intros Hact Hst.
  destruct (run_messages_statuses evs w w) with (T := T) (st := st)
    as [Hne Hin]; try done.
  - intros T' st'. by rewrite Hact, lookup_empty.
  - split; [|done]. destruct st; auto. done.
Qed.

Lemma run_messages_file_tracks evs w :
  Forall (λ ev : env * string, file_write ev.1 = WriteOk) evs →
  config_file w = FileHolds (SNIPE_LIST w) →
  config_file (run_messages evs w) = FileHolds (SNIPE_LIST (run_messages evs w)).
Proof.
  revert w. induction evs as [|[e m] evs IH]; intros w Hall Hfile; simpl; [done|].
  apply Forall_cons in Hall as [Hw Hall]. simpl in Hw. apply IH; [done|].
  destruct (on_message_inv e m w)
    as [(-> & _ & _ & -> & _)|(S & sd & a & _ & _ & _ & _ & Hf)]; [done|].
  destruct Hf as (b & l & _ & _ & -> & -> & _).
  destruct b; [|done]. unfold file_after_save. by rewrite Hw.
Qed.

(** X8. When every write goes through and the file holds the watch list
    at the start, the file holds the watch list after every callback:
    memory and disk never drift apart. *)
Theorem file_tracks_watch_list (evs : list (env * string)) (w : world) :
  Forall (λ ev, file_write ev.1 = WriteOk) evs →
  config_file w = FileHolds (SNIPE_LIST w) →
  config_file (run_messages evs w) = FileHolds (SNIPE_LIST (run_messages evs w)).
Proof. apply run_messages_file_tracks. Qed.

(** X9. A callback changes the file only when it completed an order: if
    the file differs afterwards, some symbol that was unclaimed before
    is now ['completed'] and off the watch list. *)
Theorem file_changes_only_on_completion (e : env) (m : string) (w : world) :
  config_file (on_message e m w).2 ≠ config_file w →
  ∃ S, active_orders w !! S = None ∧
       active_orders (on_message e m w).2 !! S = Some completed ∧
       dict_get S (SNIPE_LIST (on_message e m w).2) = None.
Proof.
  intros Hne.
  destruct (on_message_inv e m w)
    as [(_ & _ & _ & Hsame & _)|(S & sd & a & _ & _ & _ & Hact & Hf)]; [done|].
  destruct Hf as (b & l & _ & Ha & Hs & Hfile & _).
  destruct b; [|done]. exists S.
  rewrite Ha, Hs, lookup_insert_eq, dict_get_del. done.
Qed.

Lemma dict_keys_del k d :
  dict_keys (dict_del k d) = List.filter (λ k', negb (bool_decide (k' = k))) (dict_keys d).
Proof.
  unfold dict_keys. induction d as [|[k' v] d IH]; [done|].
  cbn [dict_del fmap list_fmap fst List.filter].
  destruct (decide (k' = k)) as [->|Hne].
  - rewrite bool_decide_eq_true_2 by done. exact IH.
  - rewrite bool_decide_eq_false_2 by done. cbn [negb fmap list_fmap fst].
    f_equal. exact IH.
Qed.

Lemma NoDup_dict_del k d : NoDup (dict_keys d) → NoDup (dict_keys (dict_del k d)).
Proof.
  rewrite dict_keys_del. intros Hnd.
  induction Hnd as [|x l Hx Hnd IH]; simpl; [constructor|].
  destruct (negb (bool_decide (x = k))); [|done].
  constructor; [|done]. intros Hin. apply Hx.
  apply list_elem_of_In, List.filter_In in Hin as [Hin _].
  by apply list_elem_of_In.
Qed.

(** X10. The watch list keeps the shape of a real dict: if its keys are
    pairwise distinct at the start they are so after any frames, and
    they stay in their original order. *)
Theorem watch_list_keys_stay_distinct (evs : list (env * string)) (w : world) :
  NoDup (dict_keys (SNIPE_LIST w)) →
  NoDup (dict_keys (SNIPE_LIST (run_messages evs w))) ∧
  sublist (dict_keys (SNIPE_LIST (run_messages evs w))) (dict_keys (SNIPE_LIST w)).
Proof.
  revert w. induction evs as [|[e m] evs IH]; intros w Hnd; simpl; [done|].
  assert (Hstep : NoDup (dict_keys (SNIPE_LIST (on_message e m w).2)) ∧
                  sublist (dict_keys (SNIPE_LIST (on_message e m w).2))
                          (dict_keys (SNIPE_LIST w))).
  { destruct (on_message_inv e m w)
      as [(-> & _)|(S & sd & a & _ & _ & _ & _ & Hf)]; [done|].
    destruct Hf as (b & l & _ & _ & -> & _).
    destruct b; [|done]. split; [by apply NoDup_dict_del|].
    rewrite dict_keys_del. clear.
    induction (dict_keys (SNIPE_LIST w)) as [|x l IH]; simpl; [done|].
    destruct (negb _); by constructor. }
  destruct Hstep as [Hnd' Hsub]. destruct (IH _ Hnd') as [? ?].
  split; [done|]. by etrans.
Qed.

Lemma turn_effects_counts sessions :
  count_connects (concat (turn_effects <$> sessions)) = length sessions ∧
  List.filter (λ x, match x with Sleep _ => true | _ => false end)
    (concat (turn_effects <$> sessions)) = replicate (count_raised sessions) (Sleep 10).
Proof.
  unfold count_connects, count_raised.
  induction sessions as [|s sessions [IH1 IH2]]; [done|].
  rewrite fmap_cons. cbn [concat]. rewrite !List.filter_app, length_app, IH1, IH2.
  by destruct s.
Qed.

(** X11. Whatever way its sessions end, the reconnect loop never stops
    on an exception, makes one connection attempt per session, and
    sleeps 10 seconds exactly once for each session that raised (and
    never otherwise). *)
Theorem loop_sleeps_once_per_raise (sessions : list session_end) (w : world) :
  let r := run_forever sessions w in
  r.1 = Ok tt ∧
  count_connects (new_effects w r.2) = length sessions ∧
  List.filter (λ x, match x with Sleep _ => true | _ => false end)
    (new_effects w r.2) = replicate (count_raised sessions) (Sleep 10) ∧
  count_sleeps (new_effects w r.2) = count_raised sessions.
Proof.
  intros r. subst r. rewrite run_forever_spec. cbn [fst snd].
  rewrite new_effects_add. destruct (turn_effects_counts sessions) as [H1 H2].
  split_and!; try done. unfold count_sleeps. by rewrite H2, length_replicate.
Qed.

(** X12. After an order for [S] was filled, the subscription sent on
    the next connection lists the remaining keys of the watch list, in
    order, without [S]; if [S] was the last symbol nothing is sent. *)
Theorem reconnect_drops_filled_symbol (e : env) (m : string) (w : world)
    (S : string) (sd : gmap string json) (a : json) (send : result unit) :
  ticker_event m S sd → price_positive sd →
  dict_get S (SNIPE_LIST w) = Some a → active_orders w !! S = None →
  (place_market_order e S a w).1 = Ok true →
  let w' := (on_message e m w).2 in
  let remaining :=
    List.filter (λ k, negb (bool_decide (k = S))) (dict_keys (SNIPE_LIST w)) in
  sent_frames (new_effects w' (on_open send w').2) =
    match remaining with
    | [] => []
    | _ :: _ => [json_dumps (subscribe_message (stream_name <$> remaining))]
    end.
Proof.
  intros Ht Hp Hget Hact Hok w' remaining.
  destruct (on_message_fires e m w S sd a Ht Hp Hget Hact)
    as (b & l & Hb & _ & Hs & _).
  fold w' in Hs. rewrite Hb in Hok. simplify_eq.
  destruct (on_open_spec send w') as (l' & E & Hl & _).
  rewrite (new_effects_app l') by (by rewrite E).
  rewrite Hl, Hs. unfold remaining. rewrite <- dict_keys_del.
  by destruct (dict_del S (SNIPE_LIST w)).
Qed.

Lemma claim_inv_effects w w' l :
  active_orders w' = active_orders w →
  effects w' = (effects w ++ l)%list →
  List.filter is_call l = [] →
  claim_inv w → claim_inv w'.
Proof.
  intros Ha He Hl Hinv S. unfold calls_for. rewrite He, List.filter_app, Ha.
  rewrite (filter_call_for S l), Hl. simpl. rewrite app_nil_r. apply Hinv.
Qed.

Lemma on_close_spec w :
  on_close w = (Ok tt, add_effects [Log LogClosed; Log LogCloseCode]
                         (set_ws_connected false w)).
Proof. unfold on_close. run_M. simpl. by rewrite add_effects_assoc. Qed.

Lemma on_open_effects o w :
  ∃ l, (on_open o w).2 = add_effects l (set_ws_connected true w) ∧
       List.filter is_call l = [].
Proof.
  unfold on_open, ws_send. run_M. simpl.
  destruct (SNIPE_LIST w) as [|[k v] d] eqn:E; simpl.
  - rewrite log_targets_spec; simpl. rewrite E, ?add_effects_assoc; simpl.
    eexists; split; [reflexivity|]. done.
  - destruct o as [[]|ex]; simpl.
    + rewrite log_targets_spec; simpl. rewrite E, ?add_effects_assoc; simpl.
      eexists; split; [reflexivity|]. simpl.
      rewrite List.filter_app. simpl. rewrite app_nil_r.
      clear. induction d as [|[k v] d IH]; simpl; done.
    + rewrite ?add_effects_assoc; simpl.
      eexists; split; [reflexivity|]. done.
Qed.

Lemma run_session_claim_inv s w : claim_inv w → claim_inv (run_session s w).
Proof.
  intros Hinv. unfold run_session. rewrite on_close_spec. cbn [snd].
  eapply (claim_inv_effects (run_messages s.2 (on_open s.1 w).2));
    [done|done|done|].
  apply run_messages_claim_inv.
  destruct (on_open_effects s.1 w) as (l & -> & Hl).
  by eapply (claim_inv_effects w).
Qed.

(** X13. Reconnecting does not reset the claims: over any number of
    connections ([on_open], frames, [on_close]) of one process that
    had placed no order before, every symbol still gets at most one
    [place_market_order] call. *)
Theorem at_most_one_order_across_reconnects
    (sessions : list (result unit * list (env * string))) (w : world) (S : string) :
  gateway_calls w = [] →
  (calls_for S (run_sessions sessions w) ≤ 1)%nat.
Proof.
  intros Hcalls.
  assert (Hinv : claim_inv (run_sessions sessions w)).
  { pose proof (start_claim_inv w Hcalls) as H. clear Hcalls.
    revert w H. induction sessions as [|s sessions IH]; intros w H; simpl; [done|].
    by apply IH, run_session_claim_inv. }
  destruct (Hinv S) as [->|[-> _]]; lia.
Qed.

(** *** Startup *)

Ltac eval_boot :=
  unfold load_snipe_list, load_snipe_list_try, try_boot, in_process, say,
    path_exists, read_config, write_default, mbind, B_bind, mret, B_ret;
  run_M.

(** X14. With no config file, [load_snipe_list] writes the default
    {NSGUSDT: 2.0} and adopts it; but it adopts it only after the write:
    if the file cannot be created, or the write is cut short, the watch
    list stays as it was (empty at startup) and only an error is logged.
    It never raises. *)
Theorem load_adopts_default_only_if_written (se : startup_env) (b : boot) :
  config_file (process b) = FileMissing →
  let r := load_snipe_list se b in
  r.1 = Ok tt ∧
  match create_default se with
  | WriteOk =>
      SNIPE_LIST (process r.2) = [("NSGUSDT", JFloat f_2)] ∧
      config_file (process r.2) = FileHolds [("NSGUSDT", JFloat f_2)] ∧
      console r.2 = (console b ++ [LogConfigNotFound; LogCreatedDefault])%list
  | OpenFails =>
      SNIPE_LIST (process r.2) = SNIPE_LIST (process b) ∧
      config_file (process r.2) = FileMissing ∧
      console r.2 = (console b ++ [LogConfigNotFound; LogLoadError OSError])%list
  | DumpFails =>
      SNIPE_LIST (process r.2) = SNIPE_LIST (process b) ∧
      config_file (process r.2) = FilePartial ∧
      console r.2 = (console b ++ [LogConfigNotFound; LogLoadError OSError])%list
  end.
Proof.
  intros Hfile r. subst r. eval_boot. simpl. rewrite Hfile. simpl.
  destruct (create_default se); simpl; rewrite <- ?app_assoc; done.
Qed.

(** X15. A config file that cannot be opened, or that does not parse,
    leaves the watch list, the statuses and the file exactly as they
    were; [load_snipe_list] logs the error and returns. *)
Theorem load_keeps_list_when_unreadable (se : startup_env) (b : boot) :
  config_file (process b) = FilePartial ∨
  (config_file (process b) ≠ FileMissing ∧ ∃ ex, open_read se = Raise ex) →
  let r := load_snipe_list se b in
  r.1 = Ok tt ∧ process r.2 = process b ∧
  ∃ ex, console r.2 = (console b ++ [LogLoadError ex])%list.
Proof.
  intros H r. subst r. eval_boot. simpl.
  destruct b as [w c]. simpl in *.
  destruct H as [Hf|[Hf [ex Hr]]].
  - rewrite Hf. simpl. destruct (open_read se); simpl; rewrite ?Hf; simpl; eauto.
  - rewrite Hr. destruct (config_file w); simpl; [done|eauto..].
Qed.

Lemma load_reads_file se b d :
  config_file (process b) = FileHolds d → open_read se = Ok tt →
  load_snipe_list se b =
    (Ok tt, {| process := set_SNIPE_LIST d (process b);
               console := (console b ++ [LogLoaded (length d)])%list |}).
Proof.
  intros Hf Hr. eval_boot. destruct b as [w c]. simpl in *.
  repeat (first [rewrite Hf | rewrite Hr]; simpl). done.
Qed.

(** X16. Save and load round trip: when every write of a run went
    through, a restarted process that can read the file resumes with
    exactly the watch list the old process ended with (so a filled
    symbol is not watched again) and with no status recorded. *)
Theorem restart_resumes_from_watch_list (evs : list (env * string)) (w : world)
    (se : startup_env) :
  Forall (λ ev, file_write ev.1 = WriteOk) evs →
  config_file w = FileHolds (SNIPE_LIST w) →
  open_read se = Ok tt →
  let b := (load_snipe_list se (restart (run_messages evs w))).2 in
  SNIPE_LIST (process b) = SNIPE_LIST (run_messages evs w) ∧
  active_orders (process b) = ∅ ∧
  config_file (process b) = config_file (run_messages evs w).
Proof.
  intros Hall Hfile Hr b.
  pose proof (run_messages_file_tracks evs w Hall Hfile) as Htr.
  subst b. erewrite load_reads_file; [|exact Htr|exact Hr]. done.
Qed.

(** X17. A failed order is final only for the running process: the
    symbol stays in the file, so after a restart it is on the watch list
    again with its amount and with no status, ready to be ordered. *)
Theorem restart_rearms_failed_symbol (e : env) (m : string) (w : world)
    (S : string) (sd : gmap string json) (a : json) (se : startup_env) :
  ticker_event m S sd → price_positive sd →
  dict_get S (SNIPE_LIST w) = Some a → active_orders w !! S = None →
  (place_market_order e S a w).1 = Ok false →
  config_file w = FileHolds (SNIPE_LIST w) → open_read se = Ok tt →
  let b := (load_snipe_list se (restart (on_message e m w).2)).2 in
  dict_get S (SNIPE_LIST (process b)) = Some a ∧
  active_orders (process b) !! S = None.
Proof.
  intros Ht Hp Hget Hact Hok Hfile Hr b.
  destruct (on_message_fires e m w S sd a Ht Hp Hget Hact)
    as (ok & l & Hb & _ & _ & Hf & _).
  rewrite Hb in Hok. simplify_eq. rewrite Hfile in Hf.
  subst b. erewrite load_reads_file; [|exact Hf|exact Hr]. done.
Qed.

(** X18. If the order for [S] is filled but the file could not be
    opened for the save, the file still lists [S]: after a restart [S]
    is watched again with no status, and the next tick with a positive
    price places a second order for it. *)
Theorem restart_after_stale_file_orders_again (e : env) (m : string) (w : world)
    (S : string) (sd : gmap string json) (a : json) (se : startup_env)
    (e2 : env) (m2 : string) :
  ticker_event m S sd → price_positive sd →
  dict_get S (SNIPE_LIST w) = Some a → active_orders w !! S = None →
  (place_market_order e S a w).1 = Ok true →
  file_write e = OpenFails →
  config_file w = FileHolds (SNIPE_LIST w) → open_read se = Ok tt →
  positive_tick S (e2, m2) →
  let w' := (on_message e m w).2 in
  let b := (load_snipe_list se (restart w')).2 in
  dict_get S (SNIPE_LIST w') = None ∧
  dict_get S (SNIPE_LIST (process b)) = Some a ∧
  calls_for S (on_message e2 m2 (process b)).2 = 1%nat.
Proof.
  intros Ht Hp Hget Hact Hok Hw Hfile Hr (sd2 & Ht2 & Hp2) w' b.
  destruct (on_message_fires e m w S sd a Ht Hp Hget Hact)
    as (ok & l & Hb & _ & Hs & Hf & _).
  fold w' in Hs, Hf. rewrite Hb in Hok. simplify_eq.
  unfold file_after_save in Hf. rewrite Hw, Hfile in Hf.
  assert (Hload : load_snipe_list se (restart w') =
            (Ok tt, {| process := set_SNIPE_LIST (SNIPE_LIST w) (process (restart w'));
                       console := [LogLoaded (length (SNIPE_LIST w))] |})).
  { erewrite load_reads_file; [done|exact Hf|exact Hr]. }
  subst b. rewrite Hload. cbn [snd process].
  split_and!.
  - rewrite Hs. apply dict_get_del.
  - exact Hget.
  - simpl in Ht2.
    pose proof (on_message_fires e2 m2
                  (set_SNIPE_LIST (SNIPE_LIST w) (process (restart w')))
                  S sd2 a Ht2 Hp2 Hget (lookup_empty S)) as Hf2.
    rewrite (calls_for_fired _ _ _ _ _ S Hf2), decide_True by done. done.
Qed.

Lemma load_snipe_list_returns se b : ∃ b', load_snipe_list se b = (Ok tt, b').
Proof.
  unfold load_snipe_list, try_boot.
  destruct (load_snipe_list_try se b) as [[[]|ex] b']; eauto.
Qed.

Lemma falsy_spec k : falsy k = true ↔ k = None ∨ k = Some "".
Proof.
  destruct k as [s|]; simpl.
  - rewrite bool_decide_eq_true. split; [intros ->; auto|intros [?|?]; congruence].
  - split; auto.
Qed.

Lemma main_startup_spec se b :
  (main_startup se b).1 =
    Ok (if falsy API_KEY || falsy SECRET_KEY then Halted else Proceeds) ∧
  (falsy API_KEY || falsy SECRET_KEY = true →
   process (main_startup se b).2 = process b).
Proof.
  unfold main_startup. unfold mbind, B_bind, mret, B_ret, say, in_process. run_M.
  simpl. destruct (falsy API_KEY || falsy SECRET_KEY); simpl; [done|].
  match goal with |- context [load_snipe_list se ?b0] =>
    destruct (load_snipe_list_returns se b0) as (b' & ->) end.
  simpl. split; [|done]. by destruct (SNIPE_LIST (process b')).
Qed.

(** X19. [main] goes on to load the list and start the feed only when
    both keys are set and non-empty; with [MEXC_API_KEY] or
    [MEXC_SECRET_KEY] missing or empty it returns after logging, without
    reading or creating the config file and without touching a global. *)
Theorem main_requires_both_keys (se : startup_env) (b : boot) :
  let r := main_startup se b in
  (r.1 = Ok Halted ∨ r.1 = Ok Proceeds) ∧
  (r.1 = Ok Halted ↔
   API_KEY = None ∨ API_KEY = Some "" ∨
   SECRET_KEY = None ∨ SECRET_KEY = Some "") ∧
  (r.1 = Ok Halted → process r.2 = process b).
Proof.
  intros r. subst r. destruct (main_startup_spec se b) as [Hr Hp].
  rewrite Hr.
  assert (Hk : falsy API_KEY || falsy SECRET_KEY = true ↔
               API_KEY = None ∨ API_KEY = Some "" ∨
               SECRET_KEY = None ∨ SECRET_KEY = Some "").
  { rewrite orb_true_iff, !falsy_spec. tauto. }
  destruct (falsy API_KEY || falsy SECRET_KEY) eqn:E.
  - split_and!; [by left| |auto]. split; [intros _; by apply Hk|done].
  - split_and!; [by right| |done].
    split; [done|]. intros H. apply Hk in H. done.
Qed.

(** X20. Once [main] has let the bot start, [SECRET_KEY] is there: every
    [place_market_order] call whose parameters url-encode then reaches
    the exchange with exactly one request. *)
Theorem started_bot_always_posts (se : startup_env) (b : boot) (e : env)
    (S : string) (a : json) (w : world) (query_string : string) :
  (main_startup se b).1 = Ok Proceeds →
  urlencode (order_params S a (time_ms e)) = Ok query_string →
  length (posts (new_effects w (place_market_order e S a w).2)) = 1%nat.
Proof.
  intros Hm Hq. destruct (main_startup_spec se b) as [Hr _].
  rewrite Hr in Hm.
  destruct (falsy API_KEY || falsy SECRET_KEY) eqn:E; [done|].
  apply orb_false_iff in E as [_ Hs].
  pose proof (place_market_order_posts e S a w) as Hp. rewrite Hq in Hp.
  destruct SECRET_KEY; [done|]. done.
Qed.

(** *** The membership tests *)

Lemma prefix_spec n h : String.prefix n h = true ↔ ∃ post, h = n +:+ post.
Proof.
  revert n. induction h as [|c' h IH]; intros [|c n]; simpl.
  - split; [intros _; by exists ""|done].
  - split; [done|intros [? ?]; done].
  - split; [intros _; by eexists|done].
  - destruct (ascii_dec c c') as [->|Hne].
    + rewrite IH. split; intros [post E]; exists post.
      * by rewrite E.
      * by injection E.
    + split; [done|]. intros [post E]. injection E as E1 E2. done.
Qed.

Lemma is_substring_unfold n h :
  is_substring n h =
    String.prefix n h ||
    match h with "" => false | String _ rest => is_substring n rest end.
Proof. by destruct h. Qed.

Lemma is_substring_spec n h :
  is_substring n h = true ↔ ∃ pre post, h = pre +:+ n +:+ post.
Proof.
  induction h as [|c h IH]; rewrite is_substring_unfold, orb_true_iff, prefix_spec.
  - split.
    + intros [[post E]|?]; [|done]. by exists "", post.
    + intros (pre & post & E). left. exists post.
      destruct pre; [done|discriminate E].
  - rewrite IH. split.
    + intros [[post E]|(pre & post & E)].
      * by exists "", post.
      * exists (String c pre), post. by rewrite E.
    + intros (pre & post & E). destruct pre as [|c0 pre].
      * left. by exists post.
      * right. injection E as _ E. by exists pre, post.
Qed.

(** X21. On a [str], the [in] test of the handler ([stream] containing
    [24hrTicker], [orderId] found in a string body) holds exactly when
    the needle occurs in it as a contiguous substring, wherever it
    starts. *)
Theorem str_in_is_substring (needle hay : string) :
  py_in needle (JStr hay) = Ok true ↔ ∃ pre post, hay = pre +:+ needle +:+ post.
Proof.
  rewrite <- is_substring_spec. cbn [py_in].
  split; [by intros [= ->]|by intros ->].
Qed.

(** X22. An int price that is zero or negative is never taken for a
    positive one, however large: [float] keeps its sign or raises. *)
Theorem non_positive_int_price_never_fires (z : Z) (p : spec_float) :
  (z ≤ 0)%Z → py_float (JInt z) = Ok p → float_gt0 p = false.
Proof.
  intros Hz Hp. simpl in Hp.
  destruct (float_of_int_not_positive z Hz) as [H|[H|(q & H & Hq)]];
    rewrite H in Hp; simplify_eq; [done|].
  by apply float_le0_not_gt0.
Qed.
End Further.

(* ------------------------------------------------------------------ *)
(** ** The further properties, run on the scenarios *)

Lemma burst_writes_ok : Forall (λ ev : env * string, file_write ev.1 = WriteOk) burst.
Proof. repeat apply Forall_cons_2; try apply Forall_nil_2; reflexivity. Defined.

Lemma tick_pos_positive : positive_tick (lib := demo_lib) "ABCUSDT" (good_env, tick_pos).
Proof. exists abc_pos_data. split; [apply tick_pos_event | apply abc_pos_price]. Defined.

Lemma at_most_one_request_per_symbol_witness :
  (posts_for "ABCUSDT" (run_messages (lib := demo_lib) burst abc_world) ≤ 1)%nat.
Proof.
  apply (at_most_one_request_per_symbol (lib := demo_lib) burst abc_world "ABCUSDT").
  reflexivity.
Defined.

Lemma orders_use_configured_spend_witness :
  dict_get "ABCUSDT" (SNIPE_LIST two_world) = Some (JFloat f_5).
Proof.
  apply (orders_use_configured_spend (lib := demo_lib) burst two_world).
  apply list_elem_of_In. vm_compute. left. reflexivity.
Defined.

Lemma watch_list_is_start_minus_completed_witness :
  dict_get "XYZUSDT" (SNIPE_LIST (run_messages (lib := demo_lib) burst two_world)) =
    match active_orders (run_messages (lib := demo_lib) burst two_world) !! "XYZUSDT" with
    | Some completed => None
    | _ => Some (JInt 3)
    end.
Proof.
  apply (watch_list_is_start_minus_completed (lib := demo_lib) burst two_world "XYZUSDT").
  reflexivity.
Defined.

Lemma status_is_final_witness :
  active_orders
    (run_messages (lib := demo_lib) burst
       (on_message (lib := demo_lib) reject_env tick_pos abc_world).2) !! "ABCUSDT"
    = Some failed.
Proof.
  apply (status_is_final (lib := demo_lib)). vm_compute. reflexivity.
Defined.

Lemma statuses_are_outcomes_of_watched_witness :
  (completed = completed ∨ completed = failed) ∧
  is_Some (dict_get "ABCUSDT" (SNIPE_LIST two_world)).
Proof.
  apply (statuses_are_outcomes_of_watched (lib := demo_lib) burst two_world
           "ABCUSDT" completed).
  - reflexivity.
  - vm_compute. reflexivity.
Defined.

Lemma file_tracks_watch_list_witness :
  config_file (run_messages (lib := demo_lib) burst two_world) =
    FileHolds (SNIPE_LIST (run_messages (lib := demo_lib) burst two_world)).
Proof.
  apply (file_tracks_watch_list (lib := demo_lib) burst two_world).
  - apply burst_writes_ok.
  - reflexivity.
Defined.

Lemma file_changes_only_on_completion_witness :
  ∃ S, active_orders two_world !! S = None ∧
       active_orders (on_message (lib := demo_lib) good_env tick_pos two_world).2 !! S
         = Some completed ∧
       dict_get S (SNIPE_LIST (on_message (lib := demo_lib) good_env tick_pos two_world).2)
         = None.
Proof.
  apply (file_changes_only_on_completion (lib := demo_lib) good_env tick_pos two_world).
  vm_compute. discriminate.
Defined.

Lemma watch_list_keys_stay_distinct_witness :
  NoDup (dict_keys (SNIPE_LIST (run_messages (lib := demo_lib) burst two_world))) ∧
  sublist (dict_keys (SNIPE_LIST (run_messages (lib := demo_lib) burst two_world)))
    ["ABCUSDT"; "XYZUSDT"].
Proof.
  apply (watch_list_keys_stay_distinct (lib := demo_lib) burst two_world).
  apply (bool_decide_unpack _). vm_compute. reflexivity.
Defined.

Lemma reconnect_drops_filled_symbol_witness :
  sent_frames
    (new_effects (on_message (lib := demo_lib) good_env tick_pos two_world).2
       (on_open (lib := demo_lib) (Ok tt)
          (on_message (lib := demo_lib) good_env tick_pos two_world).2).2)
    = ["{method:SUBSCRIPTION,params:[xyzusdt@24hrTicker]}"].
Proof.
  apply (reconnect_drops_filled_symbol (lib := demo_lib) good_env tick_pos two_world
           "ABCUSDT" abc_pos_data (JFloat f_5) (Ok tt)
           tick_pos_event abc_pos_price eq_refl eq_refl eq_refl).
Defined.

Lemma at_most_one_order_across_reconnects_witness :
  (calls_for "ABCUSDT"
     (run_sessions (lib := demo_lib) [(Ok tt, burst); (Raise OSError, burst)] two_world)
   ≤ 1)%nat.
Proof.
  apply (at_most_one_order_across_reconnects (lib := demo_lib)). reflexivity.
Defined.

Lemma load_adopts_default_only_if_written_witness :
  SNIPE_LIST (process (load_snipe_list disk_ok (fresh_boot FileMissing)).2)
    = [("NSGUSDT", JFloat f_2)] ∧
  SNIPE_LIST (process (load_snipe_list {| open_read := Ok tt; create_default := OpenFails |}
                         (fresh_boot FileMissing)).2) = [].
Proof.
  split.
  - destruct (load_adopts_default_only_if_written disk_ok (fresh_boot FileMissing) eq_refl)
      as (_ & H & _). exact H.
  - destruct (load_adopts_default_only_if_written
                {| open_read := Ok tt; create_default := OpenFails |}
                (fresh_boot FileMissing) eq_refl) as (_ & H & _). exact H.
Defined.

Lemma load_keeps_list_when_unreadable_witness :
  process (load_snipe_list disk_ok (fresh_boot FilePartial)).2
    = process (fresh_boot FilePartial).
Proof.
  destruct (load_keeps_list_when_unreadable disk_ok (fresh_boot FilePartial))
    as (_ & H & _); [|exact H].
  left. reflexivity.
Defined.

Lemma restart_resumes_from_watch_list_witness :
  SNIPE_LIST (process (load_snipe_list disk_ok
                         (restart (run_messages (lib := demo_lib) burst two_world))).2)
    = SNIPE_LIST (run_messages (lib := demo_lib) burst two_world).
Proof.
  destruct (restart_resumes_from_watch_list (lib := demo_lib) burst two_world disk_ok
              burst_writes_ok eq_refl eq_refl) as (H & _). exact H.
Defined.

Lemma restart_rearms_failed_symbol_witness :
  dict_get "ABCUSDT"
    (SNIPE_LIST (process (load_snipe_list disk_ok
       (restart (on_message (lib := demo_lib) reject_env tick_pos abc_world).2)).2))
    = Some (JFloat f_5).
Proof.
  destruct (restart_rearms_failed_symbol (lib := demo_lib) reject_env tick_pos abc_world
              "ABCUSDT" abc_pos_data (JFloat f_5) disk_ok
              tick_pos_event abc_pos_price eq_refl eq_refl eq_refl eq_refl eq_refl)
    as (H & _). exact H.
Defined.

Lemma restart_after_stale_file_orders_again_witness :
  calls_for "ABCUSDT"
    (on_message (lib := demo_lib) good_env tick_pos
       (process (load_snipe_list disk_ok
          (restart (on_message (lib := demo_lib) readonly_env tick_pos abc_world).2)).2)).2
    = 1%nat.
Proof.
  destruct (restart_after_stale_file_orders_again (lib := demo_lib) readonly_env tick_pos
              abc_world "ABCUSDT" abc_pos_data (JFloat f_5) disk_ok good_env tick_pos
              tick_pos_event abc_pos_price eq_refl eq_refl eq_refl eq_refl eq_refl
              eq_refl tick_pos_positive)
    as (_ & _ & H). exact H.
Defined.

Lemma main_requires_both_keys_witness :
  (main_startup (lib := keyless_lib) disk_ok (fresh_boot FileMissing)).1 = Ok Halted ∧
  process (main_startup (lib := keyless_lib) disk_ok (fresh_boot FileMissing)).2
    = process (fresh_boot FileMissing).
Proof.
  destruct (main_requires_both_keys (lib := keyless_lib) disk_ok (fresh_boot FileMissing))
    as (_ & Hiff & Hsame).
  assert (H : (main_startup (lib := keyless_lib) disk_ok (fresh_boot FileMissing)).1
              = Ok Halted) by (apply Hiff; left; reflexivity).
  split; [exact H | exact (Hsame H)].
Defined.

Lemma started_bot_always_posts_witness :
  length (posts (new_effects abc_world
            (place_market_order (lib := demo_lib) reject_env "ABCUSDT" (JFloat f_5)
               abc_world).2)) = 1%nat.
Proof.
  apply (started_bot_always_posts (lib := demo_lib) disk_ok (fresh_boot FileMissing)
           reject_env "ABCUSDT" (JFloat f_5) abc_world
           "symbol=ABCUSDT&side=BUY&type=MARKET&quoteOrderQty=5.0&timestamp=1700000000000").
  - vm_compute. reflexivity.
  - vm_compute. reflexivity.
Defined.

Lemma non_positive_int_price_never_fires_witness :
  float_gt0 (S754_finite true 6755399441055744 (-51)) = false.
Proof.
  apply (non_positive_int_price_never_fires (lib := demo_lib) (-3)).
  - lia.
  - vm_compute. reflexivity.
Defined.
